(** * Release script of the [iam] type package: version bumping, terminal
      prompt and publish workflow

    The development embeds the release script shipped with the package
    (the part of [types.d.ts] that starts at the [#!/usr/bin/env ts-node]
    line): [PackageManager.bumpVersion], the [Prompt] class,
    [PackageManager.clean], [build] and [publish], and [main].

    Conventions of the embedding.
    - A JavaScript string is a [string]; each character stands for one code
      unit below 256.
    - A JavaScript number is a [number]: [NaN] or an integer.  The script
      only ever produces integers (by [parseInt], [++], [+], [%] and
      [length]); the model is exact while they stay in the range where
      doubles are exact integers and print in plain decimal.
    - [undefined] and [null] results of look-ups are [None]. *)

From Stdlib Require Import ZArith List String Ascii Bool Lia.
From Stdlib Require Import DecimalString DecimalPos.
Import ListNotations.

Local Open Scope string_scope.
Local Open Scope Z_scope.

(** ** JavaScript primitives used by the script *)

Module JS.

Inductive number : Type :=
| NaN
| Int (z : Z).

(** [a + b] on numbers. *)
Definition add (a b : number) : number :=
  match a, b with
  | Int x, Int y => Int (x + y)
  | _, _ => NaN
  end.

(** [a % b]: the remainder takes the sign of the dividend, and a zero
    divisor gives [NaN]. *)
Definition rem (a b : number) : number :=
  match a, b with
  | Int x, Int y => if y =? 0 then NaN else Int (Z.rem x y)
  | _, _ => NaN
  end.

(** [`${n}`] *)
Definition toString (n : number) : string :=
  match n with
  | NaN => "NaN"
  | Int z => NilZero.string_of_int (Z.to_int z)
  end.

(** Truthiness of a string that may be [undefined] or [null]. *)
Definition truthy (s : option string) : bool :=
  match s with
  | Some (String _ _) => true
  | _ => false
  end.

(** [s || d] for a string operand that may be [undefined]. *)
Definition or_else (s : option string) (d : string) : string :=
  match s with
  | Some (String c r) => String c r
  | _ => d
  end.

(** [s.split(sep)] for a one-character separator: never empty, and the
    empty string splits into one empty part. *)
Fixpoint split (sep : ascii) (s : string) : list string :=
  match s with
  | EmptyString => [EmptyString]
  | String c r =>
      if Ascii.eqb c sep then EmptyString :: split sep r
      else match split sep r with
           | h :: t => String c h :: t
           | [] => [String c EmptyString]
           end
  end.

(** [parts.join(sep)] *)
Fixpoint join (sep : string) (parts : list string) : string :=
  match parts with
  | [] => EmptyString
  | [p] => p
  | p :: rest => p ++ sep ++ join sep rest
  end.

(** [parts.slice(1)] *)
Definition slice1 (parts : list string) : list string := tl parts.

(** [s.includes(c)] for a one-character needle. *)
Fixpoint includes (c : ascii) (s : string) : bool :=
  match s with
  | EmptyString => false
  | String d r => Ascii.eqb d c || includes c r
  end.

(** [s.startsWith(p)] *)
Definition startsWith (p s : string) : bool := String.prefix p s.

(** [parts[i]] *)
Definition index {A} (parts : list A) (i : nat) : option A :=
  nth_error parts i.

(** White space skipped by [parseInt], among the code units below 256:
    TAB, LF, VT, FF, CR, SP and NBSP. *)
Definition isWhiteSpace (c : ascii) : bool :=
  let n := nat_of_ascii c in
  ((9 <=? n) && (n <=? 13) || (n =? 32) || (n =? 160))%nat.

Definition digitValue (c : ascii) : option Z :=
  let n := Z.of_nat (nat_of_ascii c) in
  if (48 <=? n) && (n <=? 57) then Some (n - 48) else None.

Fixpoint skipWhiteSpace (s : string) : string :=
  match s with
  | String c r => if isWhiteSpace c then skipWhiteSpace r else s
  | EmptyString => s
  end.

(** The longest prefix of decimal digits, as a value: [acc] is the value
    read so far and [seen] tells whether a digit was read. *)
Fixpoint digits (s : string) (seen : bool) (acc : Z) : option Z :=
  match s with
  | EmptyString => if seen then Some acc else None
  | String c r =>
      match digitValue c with
      | Some d => digits r true (10 * acc + d)
      | None => if seen then Some acc else None
      end
  end.

(** [parseInt(s, 10)]: leading white space, an optional sign, then the
    longest run of digits; [NaN] when there is no digit. *)
Definition parseInt (s : string) : number :=
  let t := skipWhiteSpace s in
  let '(neg, body) :=
    match t with
    | String "-" r => (true, r)
    | String "+" r => (false, r)
    | _ => (false, t)
    end in
  match digits body false 0 with
  | Some z => Int (if neg then - z else z)
  | None => NaN
  end.

End JS.

(** ** [PackageManager.bumpVersion] *)

Inductive VersionType : Type := major | minor | patch | rc.

(** The four locals of [bumpVersion]. *)
Record Version : Type := mkVersion {
  v_major : JS.number;
  v_minor : JS.number;
  v_patch : JS.number;
  prerelease : option string
}.

Definition incr (n : JS.number) : JS.number := JS.add n (JS.Int 1).

(** Lines 228-232: the parse of the version string. *)
Definition parseVersion (version : string) : Version :=
  let parts := JS.split "." version in
  let part2 := JS.index parts 2 in
  {| v_major := JS.parseInt (JS.or_else (JS.index parts 0) "0");
     v_minor := JS.parseInt (JS.or_else (JS.index parts 1) "0");
     v_patch :=
       JS.parseInt
         (JS.or_else
            (match part2 with
             | Some p => JS.index (JS.split "-" p) 0
             | None => None
             end) "0");
     prerelease :=
       match part2 with
       | Some p =>
           if JS.includes "-" p
           then Some (JS.join "-" (JS.slice1 (JS.split "-" p)))
           else None
       | None => None
       end |}.

(** Lines 238-255: the [switch (type)]; it has no case for [rc]. *)
Definition bumpBase (type : VersionType) (v : Version) : Version :=
  match type with
  | major =>
      {| v_major := incr (v_major v); v_minor := JS.Int 0;
         v_patch := JS.Int 0; prerelease := None |}
  | minor =>
      {| v_major := v_major v; v_minor := incr (v_minor v);
         v_patch := JS.Int 0; prerelease := None |}
  | patch =>
      {| v_major := v_major v; v_minor := v_minor v;
         v_patch := incr (v_patch v); prerelease := None |}
  | rc => v
  end.

(** Lines 261-269: the body of [if (isRc)]. *)
Definition nextRc (pre : option string) : string :=
  match pre with
  | Some p =>
      if JS.truthy pre && JS.startsWith "rc." p
      then
        let rcNum := JS.parseInt (JS.or_else (JS.index (JS.split "." p) 1) "0") in
        "rc." ++ JS.toString (JS.add rcNum (JS.Int 1))
      else "rc.1"
  | None => "rc.1"
  end.

(** Lines 272-278: the string that is returned. *)
Definition formatVersion (v : Version) : string :=
  let newVersion :=
    JS.toString (v_major v) ++ "." ++ JS.toString (v_minor v) ++ "."
      ++ JS.toString (v_patch v) in
  match prerelease v with
  | Some p => if JS.truthy (Some p) then newVersion ++ "-" ++ p else newVersion
  | None => newVersion
  end.

Definition bumpVersion (version : string) (type : VersionType)
    (isRc incrementRcOnly : bool) : string :=
  let v0 := parseVersion version in
  let v1 := if negb incrementRcOnly then bumpBase type v0 else v0 in
  let v2 :=
    if isRc
    then {| v_major := v_major v1; v_minor := v_minor v1;
            v_patch := v_patch v1; prerelease := Some (nextRc (prerelease v1)) |}
    else v1 in
  formatVersion v2.

(** ** The [Prompt] class *)

Definition esc : string := String "027"%char EmptyString.

Definition red (message : string) : string := esc ++ "[31m" ++ message ++ esc ++ "[0m".
Definition green (message : string) : string := esc ++ "[32m" ++ message ++ esc ++ "[0m".
Definition blue (message : string) : string := esc ++ "[36m" ++ message ++ esc ++ "[0m".

(** What the script does to the terminal and the console, in order. *)
Inductive Output : Type :=
| ClearLines (lines : nat)        (* [Prompt.clear(lines)] *)
| RawMode (on : bool)             (* [process.stdin.setRawMode(on)] *)
| Log (text : string)             (* [console.log], after formatting *)
| Error (text : string).          (* [console.error] *)

Record KeyPressEvent : Type := mkKey {
  name : option string;
  ctrl : option bool
}.

(** How the promise of [select] ends: [resolve(key)] or [reject(key)]. *)
Inductive Settled : Type :=
| Resolved (value : string)
| Rejected (reason : option string).

(** The promise whose [resolve] and [reject] the prompt holds. *)
Inductive Promise : Type :=
| NoPromise
| Pending
| Done (s : Settled).

(** [options] of [select]: an array, or an object given by its properties
    in enumeration order. *)
Inductive PromptOptions : Type :=
| OfArray (a : list string)
| OfObject (o : list (string * string)).

(** The argument of [render]: [number | boolean]. *)
Inductive Offset : Type :=
| ONumber (z : Z)
| OBool (b : bool).

Module Prompt.

Record t : Type := mk {
  isTTY : bool;                 (* [process.stdin.isTTY] *)
  listeners : nat;              (* times [handler] is subscribed to 'keypress' *)
  question : option string;
  options : list string;
  keys : list string;
  selected : JS.number;
  promise : Promise;
  out : list Output
}.

(** [new Prompt()] *)
Definition new (tty : bool) : t :=
  {| isTTY := tty; listeners := 0; question := None; options := [];
     keys := []; selected := JS.Int 0; promise := NoPromise; out := [] |}.

Definition emit (o : list Output) (p : t) : t :=
  {| isTTY := isTTY p; listeners := listeners p; question := question p;
     options := options p; keys := keys p; selected := selected p;
     promise := promise p; out := out p ++ o |}.

Definition set_selected (n : JS.number) (p : t) : t :=
  {| isTTY := isTTY p; listeners := listeners p; question := question p;
     options := options p; keys := keys p; selected := n;
     promise := promise p; out := out p |}.

Definition set_listeners (n : nat) (p : t) : t :=
  {| isTTY := isTTY p; listeners := n; question := question p;
     options := options p; keys := keys p; selected := selected p;
     promise := promise p; out := out p |}.

(** Calling [resolve] or [reject] of the held promise: a promise settles
    once, and a prompt that never ran [select] holds none. *)
Definition settle (s : Settled) (p : t) : t :=
  {| isTTY := isTTY p; listeners := listeners p; question := question p;
     options := options p; keys := keys p; selected := selected p;
     promise := match promise p with Pending => Done s | other => other end;
     out := out p |}.

(** [this.question ? 2 : 0] *)
Definition questionLines (p : t) : nat :=
  if JS.truthy (question p) then 2%nat else 0%nat.

Definition clear (lines : nat) (p : t) : t := emit [ClearLines lines] p.

(** [events(mode)]: raw mode follows [mode] on a terminal, and [handler]
    is added to, or removed once from, the 'keypress' listeners. *)
Definition events (on : bool) (p : t) : t :=
  let p := if isTTY p then emit [RawMode on] p else p in
  set_listeners (if on then S (listeners p) else Nat.pred (listeners p)) p.

(** [index === this.selected] *)
Definition isSelected (index : nat) (sel : JS.number) : bool :=
  match sel with
  | JS.Int z => z =? Z.of_nat index
  | JS.NaN => false
  end.

Fixpoint optionLines (sel : JS.number) (index : nat) (opts : list string) : list Output :=
  match opts with
  | [] => []
  | option :: rest =>
      Log (if isSelected index sel then blue ("> " ++ option) else "  " ++ option)
      :: optionLines sel (S index) rest
  end.

Definition render (offset : Offset) (p : t) : t :=
  let len := List.length (options p) in
  let p :=
    match offset with
    | OBool true => p
    | _ => clear (len + questionLines p) p
    end in
  let step := match offset with ONumber z => JS.Int z | OBool _ => JS.Int 0 end in
  let p :=
    set_selected
      (JS.rem (JS.add (JS.add (selected p) step) (JS.Int (Z.of_nat len)))
              (JS.Int (Z.of_nat len))) p in
  let p :=
    match question p with
    | Some q => if JS.truthy (Some q) then emit [Log (green (q ++ String "010"%char ""))] p else p
    | None => p
    end in
  emit (optionLines (selected p) 0 (options p)) p.

(** [this.keys[this.selected]] *)
Definition selectedKey (p : t) : option string :=
  match selected p with
  | JS.Int z => if z <? 0 then None else JS.index (keys p) (Z.to_nat z)
  | JS.NaN => None
  end.

Definition exit (key : option string) (p : t) : t :=
  let p := clear (List.length (options p) + 1 + questionLines p) p in
  let p := events false p in
  match key with
  | Some k => if JS.truthy key then settle (Resolved k) p else settle (Rejected key) p
  | None => settle (Rejected key) p
  end.

(** The 'keypress' listener installed by the constructor. *)
Definition handler (key : KeyPressEvent) (p : t) : t :=
  match name key with
  | Some "up" => render (ONumber (-1)) p
  | Some "down" => render (ONumber 1) p
  | Some "return" => exit (selectedKey p) p
  | Some "escape" => exit None p
  | Some "c" => match ctrl key with Some true => exit None p | _ => p end
  | _ => p
  end.

(** One 'keypress' event: every subscription present when the event is
    emitted runs [handler]. *)
Definition keypress (key : KeyPressEvent) (p : t) : t :=
  Nat.iter (listeners p) (handler key) p.

Definition run (input : list KeyPressEvent) (p : t) : t :=
  fold_left (fun p key => keypress key p) input p.

Definition optionValues (o : PromptOptions) : list string :=
  match o with OfArray a => a | OfObject o => map snd o end.

Definition optionKeys (o : PromptOptions) : list string :=
  match o with OfArray a => a | OfObject o => map fst o end.

(** [select(question, options)], up to the point where the promise is
    handed to the caller. *)
Definition select (q : option string) (o : PromptOptions) (p : t) : t :=
  let p :=
    {| isTTY := isTTY p; listeners := listeners p; question := q;
       options := optionValues o; keys := optionKeys o;
       selected := JS.Int 0; promise := Pending; out := out p |} in
  render (OBool true) (events true p).

End Prompt.

Definition key_up : KeyPressEvent := mkKey (Some "up") None.
Definition key_down : KeyPressEvent := mkKey (Some "down") None.
Definition key_return : KeyPressEvent := mkKey (Some "return") None.
Definition key_escape : KeyPressEvent := mkKey (Some "escape") None.
Definition key_ctrl_c : KeyPressEvent := mkKey (Some "c") (Some true).

(** ** The manifest object *)

#[local] Set Warnings "-register-all".

(** Values of a parsed JSON document.  Numbers are kept integral: the
    script never looks at a number of the manifest. *)
Inductive JSON : Type :=
| JNull
| JBool (b : bool)
| JNumber (n : Z)
| JString (s : string)
| JArray (items : list JSON)
| JObject (props : list (string * JSON)).

(** An object as its own properties in enumeration order. *)
Definition PackageJson : Type := list (string * JSON).

Fixpoint JSON_eqb (a b : JSON) {struct a} : bool :=
  match a, b with
  | JNull, JNull => true
  | JBool x, JBool y => Bool.eqb x y
  | JNumber x, JNumber y => x =? y
  | JString x, JString y => String.eqb x y
  | JArray xs, JArray ys =>
      (fix all2 (xs ys : list JSON) {struct xs} : bool :=
         match xs, ys with
         | [], [] => true
         | x :: xs', y :: ys' => JSON_eqb x y && all2 xs' ys'
         | _, _ => false
         end) xs ys
  | JObject xs, JObject ys =>
      (fix all2 (xs ys : list (string * JSON)) {struct xs} : bool :=
         match xs, ys with
         | [], [] => true
         | (k, x) :: xs', (l, y) :: ys' =>
             String.eqb k l && JSON_eqb x y && all2 xs' ys'
         | _, _ => false
         end) xs ys
  | _, _ => false
  end.

(** [a !== b] for two property reads that may be [undefined].  The script
    compares a property with the value read from the same property
    earlier, so both operands are one and the same value or one of them is
    [undefined]; on such operands comparing the contents agrees with
    JavaScript's comparison of references. *)
Definition strictNotEqual (a b : option JSON) : bool :=
  match a, b with
  | None, None => false
  | Some x, Some y => negb (JSON_eqb x y)
  | _, _ => true
  end.

(** [obj[key]] *)
Fixpoint get (key : string) (obj : PackageJson) : option JSON :=
  match obj with
  | [] => None
  | (k, v) :: rest => if String.eqb k key then Some v else get key rest
  end.

(** [obj[key] = value]: an existing property keeps its place, a new one
    goes last. *)
Fixpoint set (key : string) (value : JSON) (obj : PackageJson) : PackageJson :=
  match obj with
  | [] => [(key, value)]
  | (k, v) :: rest =>
      if String.eqb k key then (k, value) :: rest
      else (k, v) :: set key value rest
  end.

(** [delete obj[key]] *)
Definition remove (key : string) (obj : PackageJson) : PackageJson :=
  filter (fun kv => negb (String.eqb (fst kv) key)) obj.

(** [obj[key] = value] where [value] may be [undefined].  A property that
    holds [undefined] reads back as [undefined] and is left out by
    [JSON.stringify], as if it were absent. *)
Definition assign (key : string) (value : option JSON) (obj : PackageJson) : PackageJson :=
  match value with
  | Some v => set key v obj
  | None => remove key obj
  end.

(** ** Completions and the workflow monad *)

(** Values the script throws or rejects with. *)
Inductive Thrown : Type :=
| Undefined
| Null
| Number (n : Z)
| Str (s : string)
| ErrorObject (kind message : string).

Inductive Completion (A : Type) : Type :=
| Normal (a : A)
| Throw (e : Thrown)
| Never.                           (* an awaited promise that never settles *)

Arguments Normal {A} a.
Arguments Throw {A} e.
Arguments Never {A}.

(** The file [package.json], the contents handed to [writeFileSync] so far
    (oldest first) and the console. *)
Record World : Type := mkWorld {
  file : string;
  writes : list string;
  console : list Output
}.

(** What [publish] can see while it runs: the world and the object
    [packageJson] it mutates. *)
Record Frame : Type := mkFrame {
  world : World;
  packageJson : PackageJson
}.

Definition M (A : Type) : Type := Frame -> Completion A * Frame.

Definition ret {A} (a : A) : M A := fun f => (Normal a, f).

Definition bind {A B} (m : M A) (k : A -> M B) : M B :=
  fun f =>
    match m f with
    | (Normal a, f') => k a f'
    | (Throw e, f') => (Throw e, f')
    | (Never, f') => (Never, f')
    end.

Definition throw {A} (e : Thrown) : M A := fun f => (Throw e, f).

Notation "x <- m ;; k" := (bind m (fun x => k))
  (at level 61, m at next level, right associativity).
Notation "m ;;; k" := (bind m (fun _ => k))
  (at level 61, right associativity).

(** [try { body } catch (error) { handler }] *)
Definition try_catch (body : M unit) (handler : Thrown -> M unit) : M unit :=
  fun f =>
    match body f with
    | (Throw e, f') => handler e f'
    | other => other
    end.

(** [try { body } finally { fin }]: [fin] runs when [body] completes, and
    its own abrupt completion replaces that of [body]. *)
Definition try_finally (body : M unit) (fin : M unit) : M unit :=
  fun f =>
    match body f with
    | (Never, f') => (Never, f')
    | (c, f') =>
        match fin f' with
        | (Normal _, f'') => (c, f'')
        | other => other
        end
    end.

Definition print (o : list Output) : M unit :=
  fun f =>
    (Normal tt,
     {| world := {| file := file (world f); writes := writes (world f);
                    console := console (world f) ++ o |};
        packageJson := packageJson f |}).

Definition console_log (text : string) : M unit := print [Log text].
Definition console_error (text : string) : M unit := print [Error text].

Definition readPackage : M PackageJson := fun f => (Normal (packageJson f), f).

Definition modify (g : PackageJson -> PackageJson) : M unit :=
  fun f => (Normal tt, {| world := world f; packageJson := g (packageJson f) |}).

(** [`${x}`] for a string that may be [undefined]. *)
Definition template (x : option string) : string :=
  match x with Some s => s | None => "undefined" end.

(** [err.message]: reading a property of [undefined] or [null] throws a
    [TypeError]; numbers and strings have no such property. *)
Definition message (err : Thrown) : M (option string) :=
  match err with
  | Undefined =>
      throw (ErrorObject "TypeError" "Cannot read properties of undefined (reading 'message')")
  | Null =>
      throw (ErrorObject "TypeError" "Cannot read properties of null (reading 'message')")
  | Number _ => ret None
  | Str _ => ret None
  | ErrorObject _ m => ret (Some m)
  end.

Definition dquote : string := String "034"%char EmptyString.
Definition newline : string := String "010"%char EmptyString.

(** What the script is run against: whether standard input is a terminal,
    the code with which the 'exit' event of each spawned command fires
    ([None] is [null]: the child was ended by a signal) and the keys typed
    at the confirmation prompt.  The spawned commands are taken not to
    touch [package.json]; what they print themselves is left out of
    [console]. *)
Record Env : Type := mkEnv {
  stdinIsTTY : bool;
  exitCode : string -> option Z;
  confirmKeys : list KeyPressEvent
}.

Section PackageManager.

(** [JSON.parse] on the text of the manifest, with the message of the
    [SyntaxError] when it throws (a text that is not an object counts as
    unreadable), and [JSON.stringify(_, null, 4)]. *)
Variable JSON_parse : string -> string + PackageJson.
Variable JSON_stringify : PackageJson -> string.
Variable env : Env.

Definition getPackageJson (w : World) : string + PackageJson :=
  JSON_parse (file w).

Definition savePackageJson (obj : PackageJson) : M unit :=
  fun f =>
    let text := JSON_stringify obj ++ newline in
    (Normal tt,
     {| world := {| file := text; writes := writes (world f) ++ [text];
                    console := console (world f) |};
        packageJson := packageJson f |}).

(** [DebugExec(cmd)]: resolves when the child exits with code 0 and
    rejects with the code otherwise. *)
Definition DebugExec (cmd : string) : M unit :=
  match exitCode env cmd with
  | Some 0 => ret tt
  | Some code => throw (Number code)
  | None => throw Null
  end.

Definition clean_cmd : string :=
  "rm -rf ./types.d.ts node_modules package-lock.json && npm i".
Definition build_cmd : string :=
  "npx tsup src/types.ts --dts --dts-only --no-splitting --out-dir .".
Definition publish_cmd : string := "npm publish --access public".
Definition commit_cmd (newVersion : string) : string :=
  "git add . && git commit -m " ++ dquote ++ "Version " ++ newVersion ++ dquote
    ++ " && git push".

Definition clean : M unit :=
  console_log (green "Running clean...") ;;;
  DebugExec clean_cmd ;;;
  console_log (green "Clean completed!").

Definition build : M unit :=
  console_log (green "Running build...") ;;;
  clean ;;;
  DebugExec build_cmd ;;;
  console_log (green "Build completed!").

(** [await prompt.select(question, options)] on a fresh prompt fed with
    [input]. *)
Definition awaitSelect (q : option string) (o : PromptOptions)
    (input : list KeyPressEvent) : M string :=
  let p := Prompt.run input (Prompt.select q o (Prompt.new (stdinIsTTY env))) in
  print (Prompt.out p) ;;;
  match Prompt.promise p with
  | Done (Resolved key) => ret key
  | Done (Rejected (Some reason)) => throw (Str reason)
  | Done (Rejected None) => throw Undefined
  | _ => fun f => (Never, f)
  end.

(** Lines 310-340: the body of [try]. *)
Definition tryBlock (originalVersion newVersion : string) : M unit :=
  build ;;;
  confirmation <-
    awaitSelect (Some ("Ready to publish version " ++ newVersion ++ ":"))
      (OfObject [("publish", "Publish " ++ newVersion); ("cancel", "Cancel")])
      (confirmKeys env) ;;
  if String.eqb confirmation "cancel"
  then console_log (blue "Cancelled. Version not changed.")
  else
    console_log (blue ("Bumping version from " ++ originalVersion ++ " to " ++ newVersion)) ;;;
    modify (set "version" (JString newVersion)) ;;;
    modify (remove "devDependencies") ;;;
    ( obj <- readPackage ;; savePackageJson obj ) ;;;
    console_log (green ("Publishing version " ++ newVersion ++ "...")) ;;;
    DebugExec publish_cmd ;;;
    console_log (green "Publish completed!") ;;;
    console_log (green "Committing and pushing...") ;;;
    DebugExec (commit_cmd newVersion) ;;;
    console_log (green "Commit and push completed!").

(** Lines 343-353: the body of [catch (error)]. *)
Definition catchBlock (originalVersion : string) (error : Thrown) : M unit :=
  msg <- message error ;;
  console_error (red ("Error during publish process: " ++ template msg)) ;;;
  obj <- readPackage ;;
  ( if strictNotEqual (get "version" obj) (Some (JString originalVersion))
    then
      modify (set "version" (JString originalVersion)) ;;;
      ( obj <- readPackage ;; savePackageJson obj ) ;;;
      console_log (blue ("Reverted version back to " ++ originalVersion))
    else ret tt ) ;;;
  throw error.

(** Lines 356-364: the body of [finally]. *)
Definition finallyBlock (originalDevDependencies : option JSON) : M unit :=
  obj <- readPackage ;;
  if strictNotEqual (get "devDependencies" obj) originalDevDependencies
  then
    modify (assign "devDependencies" originalDevDependencies) ;;;
    ( obj <- readPackage ;; savePackageJson obj ) ;;;
    console_log (green "Restored devDependencies in package.json")
  else ret tt.

(** [this.bumpVersion(originalVersion, ...)] on whatever the manifest
    holds under [version]: only a string has [split]. *)
Definition versionString (v : option JSON) : Thrown + string :=
  match v with
  | Some (JString s) => inr s
  | None => inl (ErrorObject "TypeError" "Cannot read properties of undefined (reading 'split')")
  | Some JNull => inl (ErrorObject "TypeError" "Cannot read properties of null (reading 'split')")
  | Some _ => inl (ErrorObject "TypeError" "version.split is not a function")
  end.

Definition publish (versionType : VersionType) (isRc incrementRcOnly : bool)
    (w : World) : Completion unit * World :=
  let w := {| file := file w; writes := writes w;
              console := console w ++ [Log (green "Starting publish process...")] |} in
  match getPackageJson w with
  | inl syntaxError => (Throw (ErrorObject "SyntaxError" syntaxError), w)
  | inr obj =>
      let originalDevDependencies := get "devDependencies" obj in
      match versionString (get "version" obj) with
      | inl typeError => (Throw typeError, w)
      | inr originalVersion =>
          let newVersion := bumpVersion originalVersion versionType isRc incrementRcOnly in
          let '(c, f) :=
            try_finally
              (try_catch (tryBlock originalVersion newVersion)
                         (catchBlock originalVersion))
              (finallyBlock originalDevDependencies)
              {| world := w; packageJson := obj |} in
          (c, world f)
      end
  end.

End PackageManager.

(** ** A manifest and a few runs to evaluate the workflow on *)

Module Sample.

Definition manifest : PackageJson :=
  [("name", JString "@webergency-types/iam");
   ("version", JString "1.0.0");
   ("types", JString "types.d.ts");
   ("devDependencies", JObject [("x", JString "1.0.0")]);
   ("license", JString "MIT")].

(** A one-line rendering of an object, standing in for
    [JSON.stringify(_, null, 4)] when the workflow is evaluated. *)
Fixpoint show (j : JSON) : string :=
  match j with
  | JNull => "null"
  | JBool true => "true"
  | JBool false => "false"
  | JNumber n => JS.toString (JS.Int n)
  | JString s => dquote ++ s ++ dquote
  | JArray items => "[" ++ JS.join "," (map show items) ++ "]"
  | JObject props =>
      "{" ++ JS.join "," (map (fun kv => dquote ++ fst kv ++ dquote ++ ":" ++ show (snd kv)) props)
          ++ "}"
  end.

Definition stringify (obj : PackageJson) : string := show (JObject obj).

Definition text : string := stringify manifest ++ newline.

(** A reader that knows the one text. *)
Definition parse (s : string) : string + PackageJson :=
  if String.eqb s text then inr manifest else inl "Unexpected end of JSON input".

Definition disk : World := {| file := text; writes := []; console := [] |}.

(** Every command exits with 0 and the user presses Enter on the first
    option, [publish]. *)
Definition allGood : Env :=
  {| stdinIsTTY := true; exitCode := fun _ => Some 0; confirmKeys := [key_return] |}.

(** As [allGood], but [npm publish] is ended by a signal: 'exit' fires
    with code [null]. *)
Definition publishKilled : Env :=
  {| stdinIsTTY := true;
     exitCode := fun cmd => if String.eqb cmd publish_cmd then None else Some 0;
     confirmKeys := [key_return] |}.

(** As [allGood], but [npm publish] exits with code 1. *)
Definition publishFails : Env :=
  {| stdinIsTTY := true;
     exitCode := fun cmd => if String.eqb cmd publish_cmd then Some 1 else Some 0;
     confirmKeys := [key_return] |}.

(** The user presses Escape at the confirmation prompt. *)
Definition escapePressed : Env :=
  {| stdinIsTTY := true; exitCode := fun _ => Some 0; confirmKeys := [key_escape] |}.

(** The user moves down to [cancel] and presses Enter. *)
Definition cancelChosen : Env :=
  {| stdinIsTTY := true; exitCode := fun _ => Some 0;
     confirmKeys := [key_down; key_return] |}.

End Sample.

(** ** States and runs the properties speak of *)

(** A prompt that waits for keys on [n] options with a valid selection. *)
Definition navigable (n : nat) (p : Prompt.t) : Prop :=
  Prompt.listeners p = 1%nat /\ List.length (Prompt.options p) = n /\
  exists z, Prompt.selected p = JS.Int z /\ 0 <= z < Z.of_nat n.

(** Either the prompt still waits with its handler subscribed once, or
    the handler is gone and the promise was not resolved with [""]. *)
Definition sound (p : Prompt.t) : Prop :=
  (Prompt.promise p = Pending /\ Prompt.listeners p = 1%nat) \/
  (Prompt.listeners p = 0%nat /\
   exists s, Prompt.promise p = Done s /\ forall v, s = Resolved v -> v <> "").

(** The prompt of [publish] once the keys of the run were typed. *)
Definition confirmPrompt (env : Env) (newVersion : string) : Prompt.t :=
  Prompt.run (confirmKeys env)
    (Prompt.select (Some ("Ready to publish version " ++ newVersion ++ ":"))
       (OfObject [("publish", "Publish " ++ newVersion); ("cancel", "Cancel")])
       (Prompt.new (stdinIsTTY env))).

(** The build ran through: both commands of [build] exit with code 0. *)
Definition buildSucceeds (env : Env) : Prop :=
  exitCode env clean_cmd = Some 0 /\ exitCode env build_cmd = Some 0.

Ltac workflow :=
  cbv beta iota zeta delta
    [publish getPackageJson versionString try_finally try_catch tryBlock catchBlock
     finallyBlock build clean DebugExec bind ret throw console_log console_error
     print modify readPackage savePackageJson awaitSelect message template assign
     world packageJson file writes console].

(** ** Version strings the extra properties speak of *)

(** Whether [s] begins with a decimal digit. *)
Definition startsWithDigit (s : string) : bool :=
  match s with
  | String c _ => match JS.digitValue c with Some _ => true | None => false end
  | EmptyString => false
  end.


(** ** What the terminal shows *)




(** Whether raw mode is on after a trace. *)
Definition rawMode (trace : list Output) : bool :=
  fold_left (fun on o => match o with RawMode b => b | _ => on end) trace false.

(** A prompt between [select] and its settlement on the keys [ks], or
    after it: waiting with the handler subscribed once and raw mode on (on
    a terminal), or settled with the handler removed and raw mode off. *)
Definition tidy (ks : list string) (p : Prompt.t) : Prop :=
  Prompt.keys p = ks /\
  ((Prompt.promise p = Pending /\ Prompt.listeners p = 1%nat /\
    rawMode (Prompt.out p) = Prompt.isTTY p) \/
   (Prompt.listeners p = 0%nat /\ rawMode (Prompt.out p) = false /\
    exists s, Prompt.promise p = Done s /\
      forall v, s = Resolved v -> Prompt.selectedKey p = Some v /\ v <> "")).

(** ** [main] *)

(** [s.includes(needle)] *)
Fixpoint includesText (needle s : string) : bool :=
  if String.prefix needle s then true
  else match s with
       | EmptyString => false
       | String _ r => includesText needle r
       end.

(** A key of the version menus [as VersionType].  [bumpVersion] looks at
    the type only in its [switch], where every value other than 'major',
    'minor' and 'patch' takes no case, as 'rc' does. *)
Definition asVersionType (key : string) : VersionType :=
  if String.eqb key "major" then major
  else if String.eqb key "minor" then minor
  else if String.eqb key "patch" then patch
  else rc.

(** One run of the script: the environment of [publish] and the keys
    typed at the action menu, at the version-type menu and at the menu of
    the base type for a first release candidate. *)
Record Session : Type := mkSession {
  run : Env;
  actionKeys : list KeyPressEvent;
  versionKeys : list KeyPressEvent;
  baseKeys : list KeyPressEvent
}.

(** A call, from [main], of a function that works on the world alone. *)
Definition call (g : World -> Completion unit * World) : M unit :=
  fun f =>
    let '(c, w) := g (world f) in
    (c, {| world := w; packageJson := packageJson f |}).

(** [await prompt.select(question, options)] on the prompt [p] that
    [main] holds, fed with [input]: the key, and the prompt afterwards. *)
Definition awaitSelectOn (p : Prompt.t) (q : string) (o : PromptOptions)
    (input : list KeyPressEvent) : M (string * Prompt.t) :=
  let p' := Prompt.run input (Prompt.select (Some q) o p) in
  print (skipn (List.length (Prompt.out p)) (Prompt.out p')) ;;;
  match Prompt.promise p' with
  | Done (Resolved key) => ret (key, p')
  | Done (Rejected (Some reason)) => throw (Str reason)
  | Done (Rejected None) => throw Undefined
  | _ => fun f => (Never, f)
  end.

(** [`${error}`] *)
Definition thrownToString (error : Thrown) : string :=
  match error with
  | Undefined => "undefined"
  | Null => "null"
  | Number n => JS.toString (JS.Int n)
  | Str s => s
  | ErrorObject kind EmptyString => kind
  | ErrorObject kind msg => kind ++ ": " ++ msg
  end.

Section Main.

Variable JSON_parse : string -> string + PackageJson.
Variable JSON_stringify : PackageJson -> string.

(** [PackageManager.publish] as [main] calls it. *)
Variable publishFn : VersionType -> bool -> bool -> World -> Completion unit * World.

Variable session : Session.

(** Lines 400-402: whether the version of the manifest holds ["-rc."].
    Only strings and arrays have [includes]. *)
Definition currentVersionHasRc : M bool :=
  fun f =>
    match getPackageJson JSON_parse (world f) with
    | inl syntaxError => (Throw (ErrorObject "SyntaxError" syntaxError), f)
    | inr obj =>
        match get "version" obj with
        | Some (JString currentVersion) => (Normal (includesText "-rc." currentVersion), f)
        | Some (JArray items) => (Normal (existsb (JSON_eqb (JString "-rc.")) items), f)
        | None =>
            (Throw (ErrorObject "TypeError"
                      "Cannot read properties of undefined (reading 'includes')"), f)
        | Some JNull =>
            (Throw (ErrorObject "TypeError"
                      "Cannot read properties of null (reading 'includes')"), f)
        | Some _ =>
            (Throw (ErrorObject "TypeError" "currentVersion.includes is not a function"), f)
        end
    end.

(** Lines 374-425: the body of [try]. *)
Definition mainBody : M unit :=
  let prompt := Prompt.new (stdinIsTTY (run session)) in
  selected <-
    awaitSelectOn prompt "Select an action:"
      (OfObject [("publish", "Publish"); ("build", "Build"); ("clean", "Clean")])
      (actionKeys session) ;;
  let '(action, prompt) := selected in
  if String.eqb action "clean" then clean (run session)
  else if String.eqb action "build" then build (run session)
  else if String.eqb action "publish" then
    selected <-
      awaitSelectOn prompt "Select version type to increase:"
        (OfObject [("rc", "RC (Release Candidate)"); ("patch", "Patch");
                   ("minor", "Minor"); ("major", "Major")])
        (versionKeys session) ;;
    let '(versionType, prompt) := selected in
    if String.eqb versionType "rc" then
      hasRc <- currentVersionHasRc ;;
      if hasRc : bool then call (publishFn patch true true)
      else
        selected <-
          awaitSelectOn prompt "Select base version type to increase for RC:"
            (OfObject [("patch", "Patch"); ("minor", "Minor"); ("major", "Major")])
            (baseKeys session) ;;
        let '(baseVersionType, _) := selected in
        call (publishFn (asVersionType baseVersionType) true false)
    else call (publishFn (asVersionType versionType) false false)
  else ret tt.

(** Lines 428-433: the body of [catch (error)]. *)
Definition mainCatch (error : Thrown) : M unit :=
  match error with
  | Undefined => ret tt
  | _ =>
      msg <- message error ;;
      console_error
        (red ("Error: " ++ match msg with
                           | Some (String c m) => String c m
                           | _ => thrownToString error
                           end))
  end.

(** Lines 368-440.  After [finally] has printed its line the script asks
    for the process to exit with code 0 a quarter of a second later; the
    exit itself is outside this model. *)
Definition mainWith (w : World) : Completion unit * World :=
  let '(c, f) :=
    try_finally (try_catch mainBody mainCatch) (console_log newline)
      {| world := w; packageJson := [] |} in
  (c, world f).

End Main.

(** [main()] *)
Definition main (JSON_parse : string -> string + PackageJson)
    (JSON_stringify : PackageJson -> string) (session : Session) (w : World) :
    Completion unit * World :=
  mainWith JSON_parse (publish JSON_parse JSON_stringify (run session)) session w.

(** What a run may do to the manifest on disk, from the world [w] it
    starts in to the world [w'] it ends in: leave it alone, or leave the
    text of an object with the [devDependencies] and every property other
    than [version] of the manifest it started from. *)
Definition diskKept (JSON_parse : string -> string + PackageJson)
    (JSON_stringify : PackageJson -> string) (w w' : World) : Prop :=
  (file w' = file w /\ writes w' = writes w) \/
  exists obj final : PackageJson,
    JSON_parse (file w) = inr obj /\
    file w' = JSON_stringify final ++ newline /\
    get "devDependencies" final = get "devDependencies" obj /\
    forall key, key <> "version" -> key <> "devDependencies" ->
      get key final = get key obj.

(** * Properties *)

(** ** Version bumping *)

Section Splitting.

Lemma split_parts_lack_separator (sep : ascii) (s : string) :
  forall p, In p (JS.split sep s) -> JS.includes sep p = false.
Proof.
  induction s as [|c r IH]; cbn; intros p Hp.
  - destruct Hp as [<-|[]]. reflexivity.
  - destruct (Ascii.eqb c sep) eqn:E.
    + destruct Hp as [<-|Hp]; [reflexivity|now apply IH].
    + destruct (JS.split sep r) as [|h t].
      * destruct Hp as [<-|[]]. cbn. now rewrite E.
      * destruct Hp as [<-|Hp].
        -- cbn. rewrite E. apply IH. now left.
        -- apply IH. now right.
Qed.

Lemma split_parts_keep_lacking (c sep : ascii) (s : string) :
  JS.includes c s = false ->
  forall p, In p (JS.split sep s) -> JS.includes c p = false.
Proof.
  induction s as [|d r IH]; cbn; intros Hs p Hp.
  - destruct Hp as [<-|[]]. reflexivity.
  - apply Bool.orb_false_iff in Hs as (Hd & Hr).
    destruct (Ascii.eqb d sep).
    + destruct Hp as [<-|Hp]; [reflexivity|now apply IH].
    + destruct (JS.split sep r) as [|h t].
      * destruct Hp as [<-|[]]. cbn. now rewrite Hd.
      * destruct Hp as [<-|Hp].
        -- cbn. rewrite Hd. apply IH; [exact Hr|now left].
        -- apply IH; [exact Hr|now right].
Qed.

Lemma includes_app (c : ascii) (a b : string) :
  JS.includes c (a ++ b) = JS.includes c a || JS.includes c b.
Proof.
  induction a as [|d a IH]; cbn; [reflexivity|].
  now rewrite IH, Bool.orb_assoc.
Qed.

Lemma join_lacks (c : ascii) (sep : string) (parts : list string) :
  JS.includes c sep = false ->
  (forall p, In p parts -> JS.includes c p = false) ->
  JS.includes c (JS.join sep parts) = false.
Proof.
  intros Hsep. induction parts as [|p rest IH]; intros Hall; [reflexivity|].
  destruct rest as [|q rest].
  - apply Hall. now left.
  - change (JS.join sep (p :: q :: rest)) with (p ++ sep ++ JS.join sep (q :: rest)).
    rewrite !includes_app, Hsep, (Hall p) by now left.
    apply IH. intros x Hx. apply Hall. now right.
Qed.

Lemma prefix_cons (a b : ascii) (s1 s2 : string) :
  String.prefix (String a s1) (String b s2) = true ->
  a = b /\ String.prefix s1 s2 = true.
Proof.
  change (String.prefix (String a s1) (String b s2))
    with (if ascii_dec a b then String.prefix s1 s2 else false).
  destruct (ascii_dec a b); [auto|discriminate].
Qed.

Lemma startsWith_rc_dot (p : string) :
  JS.startsWith "rc." p = true -> JS.includes "." p = true.
Proof.
  unfold JS.startsWith. intros H.
  destruct p as [|a [|b [|c p]]]; try discriminate H.
  - apply prefix_cons in H as (_ & H). discriminate H.
  - apply prefix_cons in H as (_ & H). apply prefix_cons in H as (_ & H).
    discriminate H.
  - apply prefix_cons in H as (<- & H). apply prefix_cons in H as (<- & H).
    apply prefix_cons in H as (<- & _). reflexivity.
Qed.

Lemma tl_incl {A} (l : list A) (x : A) : In x (tl l) -> In x l.
Proof. destruct l; cbn; auto. Qed.

(** The prerelease that [parseVersion] reads never holds a dot: it is
    cut out of one part of [version.split('.')]. *)
Lemma parsed_prerelease_has_no_dot (version p : string) :
  prerelease (parseVersion version) = Some p -> JS.includes "." p = false.
Proof.
  unfold parseVersion; cbn [prerelease].
  destruct (JS.index (JS.split "." version) 2) as [part|] eqn:Hpart; [|discriminate].
  destruct (JS.includes "-" part); [|discriminate].
  intros [= <-].
  apply join_lacks; [reflexivity|].
  intros x Hx. apply tl_incl in Hx.
  apply (split_parts_keep_lacking "." "-" part); [|exact Hx].
  apply (split_parts_lack_separator "." version).
  apply (nth_error_In _ 2). exact Hpart.
Qed.

(** So the branch of [bumpVersion] that increments the counter is never
    taken: whenever a release candidate is asked for, its counter is 1. *)
Lemma rc_counter_is_always_1 (version : string) (type : VersionType)
    (incrementRcOnly : bool) :
  nextRc (prerelease
            (if negb incrementRcOnly then bumpBase type (parseVersion version)
             else parseVersion version)) = "rc.1".
Proof.
  assert (H : nextRc (prerelease (parseVersion version)) = "rc.1").
  { unfold nextRc.
    destruct (prerelease (parseVersion version)) as [p|] eqn:Hp; [|reflexivity].
    destruct (JS.startsWith "rc." p) eqn:Hs; [|now rewrite Bool.andb_false_r].
    apply startsWith_rc_dot in Hs.
    rewrite (parsed_prerelease_has_no_dot version p Hp) in Hs. discriminate. }
  destruct incrementRcOnly; cbn [negb]; [exact H|].
  destruct type; cbn [bumpBase prerelease]; auto.
Qed.

End Splitting.

(** C1 (defect in the code): the claim says that
    [bumpVersion("1.2.4-rc.1", 'patch', true, true)] is ["1.2.4-rc.2"].
    The code returns ["1.2.4-rc.1"]: [version.split('.')] cuts the counter
    off the label, [prerelease] is parsed as ["rc"], which does not start
    with ["rc."], and the counter is set to 1 again; for every version
    string a requested release candidate comes out with counter 1. *)
Theorem bumpVersion_rc_only_keeps_counter :
  prerelease (parseVersion "1.2.4-rc.1") = Some "rc" /\
  bumpVersion "1.2.4-rc.1" patch true true = "1.2.4-rc.1" /\
  forall version type incrementRcOnly,
    exists base, bumpVersion version type true incrementRcOnly = base ++ "-rc.1".
Proof.
  split; [reflexivity|]. split; [reflexivity|].
  intros version type incrementRcOnly.
  unfold bumpVersion. rewrite rc_counter_is_always_1.
  unfold formatVersion; cbn [prerelease JS.truthy v_major v_minor v_patch].
  eexists. reflexivity.
Qed.

(** C6: with type [rc], no prerelease asked for and [incrementRcOnly]
    false, the base bump leaves major, minor and patch (and the prerelease)
    as parsed, whatever the version string, and the result is the parsed
    version printed back. *)
Theorem bumpVersion_rc_type_keeps_base (version : string) :
  v_major (bumpBase rc (parseVersion version)) = v_major (parseVersion version) /\
  v_minor (bumpBase rc (parseVersion version)) = v_minor (parseVersion version) /\
  v_patch (bumpBase rc (parseVersion version)) = v_patch (parseVersion version) /\
  bumpVersion version rc false false = formatVersion (parseVersion version) /\
  (forall type, bumpVersion version rc false false = bumpVersion version type false true).
Proof. repeat split. Qed.

(** C7: [bumpVersion("2.0.0-rc.3", 'major', false, false)] is ["3.0.0"]:
    major goes up by one, minor and patch are reset and the prerelease is
    dropped. *)
Theorem bumpVersion_major_clears_prerelease :
  bumpVersion "2.0.0-rc.3" major false false = "3.0.0" /\
  bumpBase major (parseVersion "2.0.0-rc.3")
  = mkVersion (JS.Int 3) (JS.Int 0) (JS.Int 0) None.
Proof. split; reflexivity. Qed.

(** C8: [bumpVersion("1.2.3", 'patch', true, false)] is ["1.2.4-rc.1"]. *)
Theorem bumpVersion_patch_first_rc :
  bumpVersion "1.2.3" patch true false = "1.2.4-rc.1".
Proof. reflexivity. Qed.

Lemma index_beyond {A} (l : list A) (i : nat) :
  (List.length l <= i)%nat -> JS.index l i = None.
Proof. intros H. unfold JS.index. now apply nth_error_None. Qed.

(** C9: a component that the version string does not have is read as 0:
    with fewer than three parts the patch is 0 (and there is no
    prerelease), with fewer than two the minor is 0 too, and an empty
    first part gives major 0; so ["1.2"] bumps to ["1.2.1"] and [""] to
    ["0.0.1"]. *)
Theorem parseVersion_missing_components (version : string) :
  (List.length (JS.split "." version) < 3)%nat ->
  v_patch (parseVersion version) = JS.Int 0 /\
  prerelease (parseVersion version) = None /\
  ((List.length (JS.split "." version) < 2)%nat ->
     v_minor (parseVersion version) = JS.Int 0) /\
  (JS.index (JS.split "." version) 0 = Some "" ->
     v_major (parseVersion version) = JS.Int 0) /\
  bumpVersion "1.2" patch false false = "1.2.1" /\
  bumpVersion "" patch false false = "0.0.1".
Proof.
  intros H. unfold parseVersion; cbn [v_patch v_minor v_major prerelease].
  rewrite (index_beyond _ 2) by lia.
  repeat split.
  - intros H1. now rewrite (index_beyond _ 1) by lia.
  - intros H0. now rewrite H0.
Qed.

Lemma parseVersion_missing_components_witness :
  (List.length (JS.split "." "") < 3)%nat /\
  v_patch (parseVersion "") = JS.Int 0 /\
  v_minor (parseVersion "") = JS.Int 0 /\
  v_major (parseVersion "") = JS.Int 0.
Proof.
  assert (H : (List.length (JS.split "." "") < 3)%nat) by (simpl; lia).
  destruct (parseVersion_missing_components "" H) as (Hp & _ & Hm & HM & _).
  split; [exact H|]. split; [exact Hp|]. split.
  - apply Hm. simpl; lia.
  - apply HM. reflexivity.
Defined.

(** ** The selection menu *)

Section Menu.

Import Prompt.

Lemma render_frame (offset : Offset) (p : Prompt.t) :
  listeners (render offset p) = listeners p /\
  options (render offset p) = options p /\
  keys (render offset p) = keys p /\
  promise (render offset p) = promise p.
Proof.
  unfold render.
  destruct offset as [z|[|]]; cbn; destruct (question p) as [[|c q]|]; cbn; auto.
Qed.

Lemma render_selected (offset : Offset) (p : Prompt.t) :
  selected (render offset p)
  = JS.rem (JS.add (JS.add (selected p)
                      (match offset with ONumber z => JS.Int z | OBool _ => JS.Int 0 end))
                   (JS.Int (Z.of_nat (List.length (options p)))))
           (JS.Int (Z.of_nat (List.length (options p)))).
Proof.
  unfold render.
  destruct offset as [z|[|]]; cbn; destruct (question p) as [[|c q]|]; cbn; auto.
Qed.

Lemma wrap_step (z d n : Z) :
  0 <= z < n -> -1 <= d <= 1 ->
  JS.rem (JS.add (JS.add (JS.Int z) (JS.Int d)) (JS.Int n)) (JS.Int n)
  = JS.Int ((z + d) mod n).
Proof.
  intros Hz Hd. cbn.
  destruct (Z.eqb_spec n 0) as [->|Hn]; [lia|].
  f_equal. rewrite Z.rem_mod_nonneg by lia.
  replace (z + d + n) with (z + d + 1 * n) by lia.
  now rewrite Z.mod_add by lia.
Qed.

Lemma keypress_once (k : KeyPressEvent) (p : Prompt.t) :
  listeners p = 1%nat -> keypress k p = handler k p.
Proof. intros H. unfold keypress. now rewrite H. Qed.

Lemma keypress_idle (k : KeyPressEvent) (p : Prompt.t) :
  listeners p = 0%nat -> keypress k p = p.
Proof. intros H. unfold keypress. now rewrite H. Qed.

Lemma keypress_down (n : nat) (c : option bool) (p : Prompt.t) (z : Z) :
  navigable n p -> selected p = JS.Int z ->
  navigable n (keypress (mkKey (Some "down") c) p) /\
  selected (keypress (mkKey (Some "down") c) p) = JS.Int ((z + 1) mod Z.of_nat n).
Proof.
  intros (Hl & Ho & z' & Hz' & Hr) Hz.
  rewrite Hz in Hz'; injection Hz' as Hz'; subst z'.
  rewrite (keypress_once _ _ Hl).
  change (handler (mkKey (Some "down") c) p) with (render (ONumber 1) p).
  destruct (render_frame (ONumber 1) p) as (Fl & Fo & _ & _).
  assert (Hs : selected (render (ONumber 1) p) = JS.Int ((z + 1) mod Z.of_nat n)).
  { rewrite render_selected, Hz, Ho. apply wrap_step; lia. }
  split; [|exact Hs].
  repeat split; try congruence.
  exists ((z + 1) mod Z.of_nat n). split; [exact Hs|].
  apply Z.mod_pos_bound; lia.
Qed.

Lemma keypress_up (n : nat) (c : option bool) (p : Prompt.t) :
  navigable n p -> navigable n (keypress (mkKey (Some "up") c) p).
Proof.
  intros (Hl & Ho & z & Hz & Hr).
  rewrite (keypress_once _ _ Hl).
  change (handler (mkKey (Some "up") c) p) with (render (ONumber (-1)) p).
  destruct (render_frame (ONumber (-1)) p) as (Fl & Fo & _ & _).
  repeat split; try congruence.
  exists ((z + -1) mod Z.of_nat n). split.
  - rewrite render_selected, Hz, Ho. apply wrap_step; lia.
  - apply Z.mod_pos_bound; lia.
Qed.

Lemma select_navigable (tty : bool) (q : option string) (o : PromptOptions) :
  (0 < List.length (optionValues o))%nat ->
  navigable (List.length (optionValues o)) (select q o (new tty)) /\
  selected (select q o (new tty)) = JS.Int 0.
Proof.
  intros Hn. unfold select.
  set (p := events true _).
  assert (Hp : listeners p = 1%nat /\ options p = optionValues o /\ selected p = JS.Int 0).
  { subst p. unfold events. cbn. destruct tty; cbn; auto. }
  destruct Hp as (Hl & Ho & Hs).
  destruct (render_frame (OBool true) p) as (Fl & Fo & _ & _).
  assert (Hsel : selected (render (OBool true) p) = JS.Int 0).
  { rewrite render_selected, Hs, Ho.
    rewrite (wrap_step 0 0) by lia. rewrite Z.mod_0_l by lia. reflexivity. }
  split; [|exact Hsel].
  repeat split; try congruence.
  exists 0. split; [exact Hsel|lia].
Qed.

Lemma run_downs (n : nat) (input : list KeyPressEvent) :
  Forall (fun k => name k = Some "down") input ->
  forall p z, navigable n p -> selected p = JS.Int z ->
    selected (run input p) = JS.Int ((z + Z.of_nat (List.length input)) mod Z.of_nat n).
Proof.
  induction 1 as [|k input Hk _ IH]; intros p z Hp Hz.
  - cbn. rewrite Z.add_0_r, Hz.
    destruct Hp as (_ & _ & z' & Hz' & Hr). rewrite Hz in Hz'.
    injection Hz' as Hz'; subst z'. now rewrite Z.mod_small.
  - destruct k as [nm c]; cbn in Hk; subst nm.
    destruct (keypress_down n c p z Hp Hz) as (Hp' & Hz').
    cbn [run fold_left]. fold (run input (keypress (mkKey (Some "down") c) p)).
    rewrite (IH _ _ Hp' Hz').
    rewrite Zplus_mod_idemp_l. f_equal. f_equal. cbn [List.length]. lia.
Qed.

Lemma run_navigation (n : nat) (input : list KeyPressEvent) :
  Forall (fun k => name k = Some "up" \/ name k = Some "down") input ->
  forall p, navigable n p -> navigable n (run input p).
Proof.
  induction 1 as [|k input Hk _ IH]; intros p Hp; [exact Hp|].
  cbn [run fold_left]. fold (run input (keypress k p)). apply IH.
  destruct k as [nm c]; cbn in Hk. destruct Hk as [->| ->].
  - now apply keypress_up.
  - destruct Hp as (Hl & Ho & z & Hz & Hr).
    now apply (keypress_down n c p z); [repeat split; eauto|].
Qed.

End Menu.

(** C5: on a menu of [N >= 1] options, [N] "down" keys after [select] bring
    the selection back to index 0, and after any sequence of "up" and
    "down" keys the selection is an index below [N]. *)
Theorem select_down_wraps (tty : bool) (q : option string) (o : PromptOptions)
    (downs : list KeyPressEvent) :
  (0 < List.length (Prompt.optionValues o))%nat ->
  Forall (fun k => name k = Some "down") downs ->
  List.length downs = List.length (Prompt.optionValues o) ->
  Prompt.selected (Prompt.select q o (Prompt.new tty)) = JS.Int 0 /\
  Prompt.selected (Prompt.run downs (Prompt.select q o (Prompt.new tty))) = JS.Int 0 /\
  forall input,
    Forall (fun k => name k = Some "up" \/ name k = Some "down") input ->
    exists z,
      Prompt.selected (Prompt.run input (Prompt.select q o (Prompt.new tty))) = JS.Int z /\
      0 <= z < Z.of_nat (List.length (Prompt.optionValues o)).
Proof.
  intros Hn Hd Hlen.
  destruct (select_navigable tty q o Hn) as (Hnav & H0).
  split; [exact H0|]. split.
  - rewrite (run_downs _ downs Hd _ 0 Hnav H0), Hlen.
    cbn [Z.add]. now rewrite Z.mod_same by lia.
  - intros input Hin.
    destruct (run_navigation _ input Hin _ Hnav) as (_ & _ & z & Hz & Hr).
    now exists z.
Qed.

Lemma select_down_wraps_witness :
  Prompt.selected
    (Prompt.run [key_down; key_down; key_down]
       (Prompt.select (Some "Select an action:")
          (OfObject [("publish", "Publish"); ("build", "Build"); ("clean", "Clean")])
          (Prompt.new true))) = JS.Int 0.
Proof.
  refine (proj1 (proj2 (select_down_wraps true (Some "Select an action:")
           (OfObject [("publish", "Publish"); ("build", "Build"); ("clean", "Clean")])
           [key_down; key_down; key_down] _ _ _))).
  - simpl; lia.
  - repeat constructor.
  - reflexivity.
Defined.

Section Exit.

Import Prompt.

Lemma exit_settles (key : option string) (p : Prompt.t) :
  promise p = Pending -> listeners p = 1%nat ->
  listeners (exit key p) = 0%nat /\
  promise (exit key p)
  = Done (match key with
          | Some (String c k) => Resolved (String c k)
          | _ => Rejected key
          end).
Proof.
  intros Hp Hl. unfold exit, events, settle, clear.
  destruct key as [[|c k]|]; destruct (isTTY p) eqn:Ht;
    cbn; rewrite ?Ht; cbn; rewrite Hp, Hl; auto.
Qed.

Lemma handler_sound (k : KeyPressEvent) (p : Prompt.t) :
  promise p = Pending -> listeners p = 1%nat -> sound (handler k p).
Proof.
  intros Hp Hl.
  assert (Hexit : forall key, sound (exit key p)).
  { intros key. destruct (exit_settles key p Hp Hl) as (E0 & Ep).
    right. split; [exact E0|]. eexists; split; [exact Ep|].
    intros v Hv. destruct key as [[|c r]|]; inversion Hv. discriminate. }
  assert (Hrender : forall off, sound (render off p)).
  { intros off. destruct (render_frame off p) as (Fl & _ & _ & Fp).
    left. split; congruence. }
  assert (Hsame : sound p) by (left; auto).
  destruct k as [nm c]. unfold handler; cbn [name ctrl].
  destruct nm as [nm|]; [|exact Hsame].
  destruct (String.eqb_spec nm "up") as [->|]; [apply Hrender|].
  destruct (String.eqb_spec nm "down") as [->|]; [apply Hrender|].
  destruct (String.eqb_spec nm "return") as [->|]; [apply Hexit|].
  destruct (String.eqb_spec nm "escape") as [->|]; [apply Hexit|].
  destruct (String.eqb_spec nm "c") as [->|].
  - destruct c as [[|]|]; auto.
  - repeat (match goal with
            | |- context [match ?x with _ => _ end] => destruct x; try exact Hsame
            end); congruence.
Qed.

Lemma keypress_sound (k : KeyPressEvent) (p : Prompt.t) :
  sound p -> sound (keypress k p).
Proof.
  intros [(Hp & Hl)|(Hl & Hv)].
  - rewrite (keypress_once _ _ Hl). now apply handler_sound.
  - rewrite (keypress_idle _ _ Hl). right; auto.
Qed.

Lemma run_sound (input : list KeyPressEvent) :
  forall p, sound p -> sound (run input p).
Proof.
  induction input as [|k input IH]; intros p Hp; [exact Hp|].
  cbn [run fold_left]. apply IH. now apply keypress_sound.
Qed.

Lemma select_sound (tty : bool) (q : option string) (o : PromptOptions) :
  sound (select q o (new tty)).
Proof.
  left. unfold select.
  destruct (render_frame (OBool true)
              (events true
                 {| isTTY := isTTY (new tty); listeners := listeners (new tty);
                    question := q; options := optionValues o; keys := optionKeys o;
                    selected := JS.Int 0; promise := Pending; out := out (new tty) |}))
    as (Fl & _ & _ & Fp).
  rewrite Fl, Fp. unfold events. cbn. destruct tty; cbn; auto.
Qed.

End Exit.

(** C10: [select] is resolved only with a non-empty key.  When Enter is
    pressed while the prompt waits and the key of the selected option is
    the empty string, the promise is rejected, with that empty string as
    its reason, and whatever is typed before or after, the promise is
    never resolved with the empty string. *)
Theorem select_empty_key_rejects (tty : bool) (q : option string)
    (o : PromptOptions) (input : list KeyPressEvent) (c : option bool) :
  Prompt.promise (Prompt.run input (Prompt.select q o (Prompt.new tty))) = Pending ->
  Prompt.selectedKey (Prompt.run input (Prompt.select q o (Prompt.new tty))) = Some "" ->
  Prompt.promise
    (Prompt.keypress (mkKey (Some "return") c)
       (Prompt.run input (Prompt.select q o (Prompt.new tty))))
  = Done (Rejected (Some "")) /\
  forall more value,
    Prompt.promise (Prompt.run (input ++ more) (Prompt.select q o (Prompt.new tty)))
    = Done (Resolved value) ->
    value <> "".
Proof.
  intros Hpending Hkey. split.
  - destruct (run_sound input _ (select_sound tty q o)) as [(_ & Hl)|(_ & s & Hs & _)].
    + rewrite (keypress_once _ _ Hl).
      change (Prompt.handler (mkKey (Some "return") c) ?p)
        with (Prompt.exit (Prompt.selectedKey p) p).
      rewrite Hkey.
      now destruct (exit_settles (Some "") _ Hpending Hl) as (_ & ->).
    + congruence.
  - intros more value Hres.
    destruct (run_sound (input ++ more) _ (select_sound tty q o))
      as [(Hp & _)|(_ & s & Hs & Hv)].
    + congruence.
    + apply Hv. congruence.
Qed.

Lemma select_empty_key_rejects_witness :
  Prompt.promise
    (Prompt.keypress key_return
       (Prompt.run [key_down] (Prompt.select None (OfArray ["a"; ""]) (Prompt.new true))))
  = Done (Rejected (Some "")).
Proof.
  refine (proj1 (select_empty_key_rejects true None (OfArray ["a"; ""]) [key_down] None _ _));
    reflexivity.
Defined.

(** ** The publish workflow *)

Section Objects.

Lemma get_set_same (key : string) (v : JSON) (obj : PackageJson) :
  get key (set key v obj) = Some v.
Proof.
  induction obj as [|[k x] rest IH]; cbn.
  - now rewrite String.eqb_refl.
  - destruct (String.eqb k key) eqn:E; cbn; now rewrite E.
Qed.

Lemma get_set_other (key other : string) (v : JSON) (obj : PackageJson) :
  key <> other -> get other (set key v obj) = get other obj.
Proof.
  intros Hne. induction obj as [|[k x] rest IH]; cbn.
  - now destruct (String.eqb_spec key other).
  - destruct (String.eqb_spec k key) as [->|Hk]; cbn.
    + now destruct (String.eqb_spec key other).
    + now rewrite IH.
Qed.

Lemma get_remove_same (key : string) (obj : PackageJson) :
  get key (remove key obj) = None.
Proof.
  unfold remove.
  induction obj as [|[k x] rest IH]; cbn; [reflexivity|].
  destruct (String.eqb k key) eqn:E; cbn; [exact IH|]. now rewrite E.
Qed.

Lemma get_remove_other (key other : string) (obj : PackageJson) :
  key <> other -> get other (remove key obj) = get other obj.
Proof.
  intros Hne. unfold remove.
  induction obj as [|[k x] rest IH]; cbn; [reflexivity|].
  destruct (String.eqb_spec k key) as [->|Hk]; cbn.
  - rewrite IH. now destruct (String.eqb_spec key other).
  - now rewrite IH.
Qed.

Lemma JSON_eqb_refl : forall j : JSON, JSON_eqb j j = true.
Proof.
  fix IH 1. intros [| b | n | s | items | props]; cbn.
  - reflexivity.
  - apply Bool.eqb_reflx.
  - apply Z.eqb_refl.
  - apply String.eqb_refl.
  - induction items as [|x items IHitems]; [reflexivity|].
    now rewrite IH, IHitems.
  - induction props as [|[k x] props IHprops]; [reflexivity|].
    now rewrite String.eqb_refl, IH, IHprops.
Qed.

Lemma strictNotEqual_version (a b : string) :
  strictNotEqual (Some (JString a)) (Some (JString b)) = negb (String.eqb a b).
Proof. reflexivity. Qed.

End Objects.

(** Reads the manifest and names the new version [nv]. *)
Ltac enter_publish Hparse Hversion nv :=
  match goal with
  | w : World |- _ => destruct w as [text ws cs]; cbn [file] in Hparse
  end;
  unfold publish, getPackageJson; cbn [file];
  rewrite Hparse, Hversion; cbn [versionString];
  match goal with
  | |- context [bumpVersion ?v ?t ?r ?o] =>
      set (nv := bumpVersion v t r o) in *; clearbody nv
  end.

Ltac fold_prompt env nv :=
  change (Prompt.run (confirmKeys env) _) with (confirmPrompt env nv).

(** C3: when the build, the confirmation, the publish command and the
    commit all succeed, [publish] returns normally and the manifest on
    disk is the text of an object that holds the new version, the
    [devDependencies] of the manifest read at the start, and every other
    property as it was read. *)
Theorem publish_success_restores_devDependencies
    (JSON_parse : string -> string + PackageJson)
    (JSON_stringify : PackageJson -> string) (env : Env)
    (versionType : VersionType) (isRc incrementRcOnly : bool)
    (w : World) (obj : PackageJson) (originalVersion : string) :
  JSON_parse (file w) = inr obj ->
  get "version" obj = Some (JString originalVersion) ->
  buildSucceeds env ->
  Prompt.promise
    (confirmPrompt env (bumpVersion originalVersion versionType isRc incrementRcOnly))
  = Done (Resolved "publish") ->
  exitCode env publish_cmd = Some 0 ->
  exitCode env
    (commit_cmd (bumpVersion originalVersion versionType isRc incrementRcOnly)) = Some 0 ->
  exists (final : PackageJson) (w' : World),
    publish JSON_parse JSON_stringify env versionType isRc incrementRcOnly w
    = (Normal tt, w') /\
    file w' = JSON_stringify final ++ newline /\
    get "version" final
    = Some (JString (bumpVersion originalVersion versionType isRc incrementRcOnly)) /\
    get "devDependencies" final = get "devDependencies" obj /\
    (forall key, key <> "version" -> key <> "devDependencies" ->
       get key final = get key obj).
Proof.
  intros Hparse Hversion (Hclean & Hbuild) Hconfirm Hpublish Hcommit.
  enter_publish Hparse Hversion nv.
  workflow. rewrite Hclean, Hbuild.
  fold_prompt env nv. rewrite Hconfirm. cbn [String.eqb Ascii.eqb Bool.eqb].
  rewrite Hpublish, Hcommit. rewrite get_remove_same.
  destruct (get "devDependencies" obj) as [dev|] eqn:Hdev; cbn [strictNotEqual].
  - eexists; eexists. split; [reflexivity|]. cbn [file].
    split; [reflexivity|]. split; [|split].
    + rewrite get_set_other, get_remove_other, get_set_same by discriminate. reflexivity.
    + apply get_set_same.
    + intros key Hv Hd.
      rewrite get_set_other, get_remove_other, get_set_other by congruence. reflexivity.
  - eexists; eexists. split; [reflexivity|]. cbn [file].
    split; [reflexivity|]. split; [|split].
    + rewrite get_remove_other, get_set_same by discriminate. reflexivity.
    + apply get_remove_same.
    + intros key Hv Hd.
      rewrite get_remove_other, get_set_other by congruence. reflexivity.
Qed.

Lemma publish_success_restores_devDependencies_witness :
  exists (final : PackageJson) (w' : World),
    publish Sample.parse Sample.stringify Sample.allGood minor false false Sample.disk
    = (Normal tt, w') /\
    file w' = Sample.stringify final ++ newline /\
    get "version" final = Some (JString "1.1.0") /\
    get "devDependencies" final = Some (JObject [("x", JString "1.0.0")]).
Proof.
  destruct (publish_success_restores_devDependencies
              Sample.parse Sample.stringify Sample.allGood minor false false
              Sample.disk Sample.manifest "1.0.0")
    as (final & w' & Hrun & Hfile & Hversion & Hdev & _).
  - reflexivity.
  - reflexivity.
  - split; reflexivity.
  - reflexivity.
  - reflexivity.
  - reflexivity.
  - exists final, w'. repeat split; assumption.
Defined.

(** X14: the cancel option of the confirmation prompt: [publish] returns
    normally, nothing is written and the console only gains the messages
    of the build, the prompt and the notice of the cancellation. *)
Lemma publish_cancel_option_is_quiet
    (JSON_parse : string -> string + PackageJson)
    (JSON_stringify : PackageJson -> string) (env : Env)
    (versionType : VersionType) (isRc incrementRcOnly : bool)
    (w : World) (obj : PackageJson) (originalVersion : string) :
  JSON_parse (file w) = inr obj ->
  get "version" obj = Some (JString originalVersion) ->
  buildSucceeds env ->
  Prompt.promise
    (confirmPrompt env (bumpVersion originalVersion versionType isRc incrementRcOnly))
  = Done (Resolved "cancel") ->
  publish JSON_parse JSON_stringify env versionType isRc incrementRcOnly w
  = (Normal tt,
     {| file := file w; writes := writes w;
        console :=
          console w
          ++ [Log (green "Starting publish process..."); Log (green "Running build...");
              Log (green "Running clean..."); Log (green "Clean completed!");
              Log (green "Build completed!")]
          ++ Prompt.out
               (confirmPrompt env
                  (bumpVersion originalVersion versionType isRc incrementRcOnly))
          ++ [Log (blue "Cancelled. Version not changed.")] |}).
Proof.
  intros Hparse Hversion (Hclean & Hbuild) Hconfirm.
  enter_publish Hparse Hversion nv.
  workflow. rewrite Hclean, Hbuild.
  fold_prompt env nv. rewrite Hconfirm. cbn [String.eqb Ascii.eqb Bool.eqb].
  destruct (get "devDependencies" obj) as [dev|] eqn:Hdev; cbn [strictNotEqual].
  - rewrite JSON_eqb_refl. cbn [negb file writes console].
    now rewrite <- !app_assoc.
  - cbn [file writes console]. now rewrite <- !app_assoc.
Qed.

(** C4 (defect in the code): the claim says that a rejected confirmation
    prompt ends [publish] quietly.  Nothing is written and the manifest is
    left as it was, but [catch] reads [err.message] of the [undefined] it
    caught: [publish] ends with a [TypeError] instead of returning. *)
Theorem publish_prompt_rejection_throws
    (JSON_parse : string -> string + PackageJson)
    (JSON_stringify : PackageJson -> string) (env : Env)
    (versionType : VersionType) (isRc incrementRcOnly : bool)
    (w : World) (obj : PackageJson) (originalVersion : string) :
  JSON_parse (file w) = inr obj ->
  get "version" obj = Some (JString originalVersion) ->
  buildSucceeds env ->
  Prompt.promise
    (confirmPrompt env (bumpVersion originalVersion versionType isRc incrementRcOnly))
  = Done (Rejected None) ->
  exists w' : World,
    publish JSON_parse JSON_stringify env versionType isRc incrementRcOnly w
    = (Throw (ErrorObject "TypeError"
                "Cannot read properties of undefined (reading 'message')"), w') /\
    file w' = file w /\ writes w' = writes w.
Proof.
  intros Hparse Hversion (Hclean & Hbuild) Hconfirm.
  enter_publish Hparse Hversion nv.
  workflow. rewrite Hclean, Hbuild.
  fold_prompt env nv. rewrite Hconfirm.
  destruct (get "devDependencies" obj) as [dev|] eqn:Hdev; cbn [strictNotEqual].
  - rewrite JSON_eqb_refl. cbn [negb]. eexists. repeat split.
  - eexists. repeat split.
Qed.

Lemma publish_prompt_rejection_throws_witness :
  exists w' : World,
    publish Sample.parse Sample.stringify Sample.escapePressed minor false false Sample.disk
    = (Throw (ErrorObject "TypeError"
                "Cannot read properties of undefined (reading 'message')"), w') /\
    file w' = Sample.text /\ writes w' = [].
Proof.
  apply (publish_prompt_rejection_throws
           Sample.parse Sample.stringify Sample.escapePressed minor false false
           Sample.disk Sample.manifest "1.0.0").
  - reflexivity.
  - reflexivity.
  - split; reflexivity.
  - reflexivity.
Defined.

(** X12: when [npm publish] exits with a code other than 0, the version is
    rolled back: the manifest on disk is the text of an object that holds
    the original version and the original [devDependencies], and the exit
    code is thrown on to the caller. *)
Lemma publish_rolls_back_on_exit_code
    (JSON_parse : string -> string + PackageJson)
    (JSON_stringify : PackageJson -> string) (env : Env)
    (versionType : VersionType) (isRc incrementRcOnly : bool)
    (w : World) (obj : PackageJson) (originalVersion : string) (code : Z) :
  JSON_parse (file w) = inr obj ->
  get "version" obj = Some (JString originalVersion) ->
  buildSucceeds env ->
  Prompt.promise
    (confirmPrompt env (bumpVersion originalVersion versionType isRc incrementRcOnly))
  = Done (Resolved "publish") ->
  exitCode env publish_cmd = Some code -> code <> 0 ->
  exists (final : PackageJson) (w' : World),
    publish JSON_parse JSON_stringify env versionType isRc incrementRcOnly w
    = (Throw (Number code), w') /\
    file w' = JSON_stringify final ++ newline /\
    get "version" final = Some (JString originalVersion) /\
    get "devDependencies" final = get "devDependencies" obj.
Proof.
  intros Hparse Hversion (Hclean & Hbuild) Hconfirm Hpublish Hcode.
  enter_publish Hparse Hversion nv.
  workflow. rewrite Hclean, Hbuild.
  fold_prompt env nv. rewrite Hconfirm. cbn [String.eqb Ascii.eqb Bool.eqb].
  rewrite Hpublish.
  assert (Hthrow : forall (A : Type) (a b : A),
             match code with 0 => a | Z.pos _ | Z.neg _ => b end = b)
    by (intros; destruct code; congruence).
  rewrite Hthrow.
  rewrite get_remove_other, get_set_same, strictNotEqual_version by discriminate.
  destruct (String.eqb_spec nv originalVersion) as [->|Hne]; cbn [negb].
  - rewrite get_remove_same.
    destruct (get "devDependencies" obj) as [dev|] eqn:Hdev; cbn [strictNotEqual].
    + eexists; eexists. split; [reflexivity|]. split; [reflexivity|]. split.
      * rewrite get_set_other, get_remove_other, get_set_same by discriminate. reflexivity.
      * apply get_set_same.
    + eexists; eexists. split; [reflexivity|]. split; [reflexivity|]. split.
      * rewrite get_remove_other, get_set_same by discriminate. reflexivity.
      * apply get_remove_same.
  - rewrite get_set_other, get_remove_same by discriminate.
    destruct (get "devDependencies" obj) as [dev|] eqn:Hdev; cbn [strictNotEqual].
    + eexists; eexists. split; [reflexivity|]. split; [reflexivity|]. split.
      * rewrite get_set_other, get_set_same by discriminate. reflexivity.
      * apply get_set_same.
    + eexists; eexists. split; [reflexivity|]. split; [reflexivity|]. split.
      * apply get_set_same.
      * rewrite get_set_other, get_remove_same by discriminate. reflexivity.
Qed.

(** On the sample manifest: [npm publish] exits with 1, the manifest reads
    back version 1.0.0 with its [devDependencies], and 1 is thrown on. *)
Example publish_exit_1_reads_back_original :
  exists (final : PackageJson) (w' : World),
    publish Sample.parse Sample.stringify Sample.publishFails minor false false Sample.disk
    = (Throw (Number 1), w') /\
    file w' = Sample.stringify final ++ newline /\
    get "version" final = Some (JString "1.0.0") /\
    get "devDependencies" final = Some (JObject [("x", JString "1.0.0")]).
Proof.
  apply (publish_rolls_back_on_exit_code
           Sample.parse Sample.stringify Sample.publishFails minor false false
           Sample.disk Sample.manifest "1.0.0" 1);
    try reflexivity; [split; reflexivity | discriminate].
Defined.

(** On the sample manifest: the cancel option returns normally and leaves
    the file as it was, with no write. *)
Example publish_cancel_leaves_sample_untouched :
  fst (publish Sample.parse Sample.stringify Sample.cancelChosen minor false false
         Sample.disk) = Normal tt /\
  file (snd (publish Sample.parse Sample.stringify Sample.cancelChosen minor false false
               Sample.disk)) = Sample.text /\
  writes (snd (publish Sample.parse Sample.stringify Sample.cancelChosen minor false false
                 Sample.disk)) = [].
Proof.
  rewrite (publish_cancel_option_is_quiet
             Sample.parse Sample.stringify Sample.cancelChosen minor false false
             Sample.disk Sample.manifest "1.0.0");
    try reflexivity; [repeat split | split; reflexivity].
Defined.

(** C2 (defect in the code): the claim says that every failure after the
    manifest was rewritten leaves the original version on disk and is
    thrown on.  When [npm publish] is ended by a signal its 'exit' event
    carries [null]; [catch] reads [err.message] of that [null], throws a
    [TypeError] before it reaches the rollback, and the manifest on disk
    keeps the new version (with the [devDependencies] put back by
    [finally]). *)
Theorem publish_signal_skips_rollback
    (JSON_parse : string -> string + PackageJson)
    (JSON_stringify : PackageJson -> string) (env : Env)
    (versionType : VersionType) (isRc incrementRcOnly : bool)
    (w : World) (obj : PackageJson) (originalVersion : string) :
  JSON_parse (file w) = inr obj ->
  get "version" obj = Some (JString originalVersion) ->
  buildSucceeds env ->
  Prompt.promise
    (confirmPrompt env (bumpVersion originalVersion versionType isRc incrementRcOnly))
  = Done (Resolved "publish") ->
  exitCode env publish_cmd = None ->
  exists (final : PackageJson) (w' : World),
    publish JSON_parse JSON_stringify env versionType isRc incrementRcOnly w
    = (Throw (ErrorObject "TypeError"
                "Cannot read properties of null (reading 'message')"), w') /\
    file w' = JSON_stringify final ++ newline /\
    get "version" final
    = Some (JString (bumpVersion originalVersion versionType isRc incrementRcOnly)) /\
    get "devDependencies" final = get "devDependencies" obj.
Proof.
  intros Hparse Hversion (Hclean & Hbuild) Hconfirm Hpublish.
  enter_publish Hparse Hversion nv.
  workflow. rewrite Hclean, Hbuild.
  fold_prompt env nv. rewrite Hconfirm. cbn [String.eqb Ascii.eqb Bool.eqb].
  rewrite Hpublish. rewrite get_remove_same.
  destruct (get "devDependencies" obj) as [dev|] eqn:Hdev; cbn [strictNotEqual].
  - eexists; eexists. split; [reflexivity|]. split; [reflexivity|]. split.
    + rewrite get_set_other, get_remove_other, get_set_same by discriminate. reflexivity.
    + apply get_set_same.
  - eexists; eexists. split; [reflexivity|]. split; [reflexivity|]. split.
    + rewrite get_remove_other, get_set_same by discriminate. reflexivity.
    + apply get_remove_same.
Qed.

Lemma publish_signal_skips_rollback_witness :
  exists (final : PackageJson) (w' : World),
    publish Sample.parse Sample.stringify Sample.publishKilled minor false false Sample.disk
    = (Throw (ErrorObject "TypeError"
                "Cannot read properties of null (reading 'message')"), w') /\
    file w' = Sample.stringify final ++ newline /\
    get "version" final = Some (JString "1.1.0") /\
    get "devDependencies" final = Some (JObject [("x", JString "1.0.0")]).
Proof.
  apply (publish_signal_skips_rollback
           Sample.parse Sample.stringify Sample.publishKilled minor false false
           Sample.disk Sample.manifest "1.0.0").
  - reflexivity.
  - reflexivity.
  - split; reflexivity.
  - reflexivity.
  - reflexivity.
Defined.

(** * Further properties *)

(** ** Decimal numbers and splitting *)

Section Decimal.

Import Decimal.

Lemma digits_step (c : ascii) (s : string) (seen : bool) (acc d : Z) :
  JS.digitValue c = Some d ->
  JS.digits (String c s) seen acc = JS.digits s true (10 * acc + d).
Proof. intros H. cbn [JS.digits]. now rewrite H. Qed.

Lemma digits_stop (s : string) (acc : Z) :
  match s with String c _ => JS.digitValue c = None | EmptyString => True end ->
  JS.digits s true acc = Some acc.
Proof. destruct s as [|c s]; cbn [JS.digits]; [reflexivity|]. now intros ->. Qed.

Ltac digit_value :=
  match goal with
  | |- context [Z.of_nat (nat_of_ascii ?c) - 48] =>
      let v := eval vm_compute in (Z.of_nat (nat_of_ascii c) - 48) in
      change (Z.of_nat (nat_of_ascii c) - 48) with v
  end.

Ltac digit_case IH :=
  cbn [NilEmpty.string_of_uint append Pos.of_uint_acc];
  erewrite digits_step by reflexivity;
  rewrite ?Bool.orb_true_r; digit_value;
  match goal with
  | |- JS.digits _ true ?z = JS.digits _ true (Z.pos (Pos.of_uint_acc _ ?q)) =>
      replace z with (Z.pos q) by lia
  end;
  rewrite IH; reflexivity.

Lemma digits_uint_acc (d : uint) (r : string) :
  forall (seen : bool) (p : positive),
    JS.digits (NilEmpty.string_of_uint d ++ r) seen (Z.pos p)
    = JS.digits r (seen || match d with Nil => false | _ => true end)
        (Z.pos (Pos.of_uint_acc d p)).
Proof.
  induction d; intros seen p; try (digit_case IHd).
  cbn. now rewrite Bool.orb_false_r.
Qed.

Lemma digits_uint (d : uint) (r : string) :
  forall seen : bool,
    JS.digits (NilEmpty.string_of_uint d ++ r) seen 0
    = JS.digits r (seen || match d with Nil => false | _ => true end)
        (Z.of_N (Pos.of_uint d)).
Proof.
  induction d; intros seen;
    cbn [NilEmpty.string_of_uint append Pos.of_uint];
    try (erewrite digits_step by reflexivity; rewrite Bool.orb_true_r;
         digit_value; cbn [Z.mul Z.add]; rewrite digits_uint_acc; reflexivity).
  - cbn. now rewrite Bool.orb_false_r.
  - erewrite digits_step by reflexivity. rewrite Bool.orb_true_r.
    digit_value. cbn [Z.mul Z.add]. now rewrite IHd.
Qed.

End Decimal.

Section Strings.

Lemma append_empty_r (s : string) : s ++ "" = s.
Proof. induction s as [|c s IH]; cbn; [reflexivity|now rewrite IH]. Qed.

Lemma append_assoc (a b c : string) : (a ++ b) ++ c = a ++ b ++ c.
Proof. induction a as [|x a IH]; cbn; [reflexivity|now rewrite IH]. Qed.







End Strings.

Section Numerals.

Import Decimal.

(** A non-negative integer prints as a non-empty run of digits that reads
    back as the integer. *)
Lemma toString_digits (n : Z) :
  0 <= n ->
  exists d : uint,
    d <> Nil /\ JS.toString (JS.Int n) = NilEmpty.string_of_uint d /\
    Z.of_N (Pos.of_uint d) = n.
Proof.
  intros Hn. destruct n as [|p|p]; [| |lia].
  - exists (D0 Nil). repeat split. discriminate.
  - exists (Pos.to_uint p).
    pose proof (DecimalPos.Unsigned.to_uint_nonnil p) as Hnil.
    split; [exact Hnil|]. split.
    + cbn [JS.toString Z.to_int NilZero.string_of_int]. unfold NilZero.string_of_uint.
      destruct (Pos.to_uint p); [contradiction|reflexivity..].
    + now rewrite DecimalPos.Unsigned.of_to.
Qed.




(** [parseInt] reads back what a non-negative integer prints as, whatever
    follows it, as long as that does not begin with a digit. *)
Lemma parseInt_toString_app (n : Z) (r : string) :
  0 <= n -> startsWithDigit r = false ->
  JS.parseInt (JS.toString (JS.Int n) ++ r) = JS.Int n.
Proof.
  intros Hn Hr. destruct (toString_digits n Hn) as (d & Hd & -> & Hv).
  assert (Hstop : JS.digits r true n = Some n).
  { apply digits_stop. destruct r as [|c r]; [exact I|].
    cbn in Hr. now destruct (JS.digitValue c). }
  assert (Hdigits : JS.digits (NilEmpty.string_of_uint d ++ r) false 0 = Some n).
  { rewrite digits_uint, Hv. destruct d; [contradiction|exact Hstop..]. }
  unfold JS.parseInt.
  destruct d; [contradiction|..];
    cbn [NilEmpty.string_of_uint append JS.skipWhiteSpace] in *;
    (match goal with
     | |- context [JS.isWhiteSpace ?c] =>
         change (JS.isWhiteSpace c) with false; cbv beta iota
     end); rewrite Hdigits; reflexivity.
Qed.

Lemma parseInt_toString (n : Z) :
  0 <= n -> JS.parseInt (JS.toString (JS.Int n)) = JS.Int n.
Proof.
  intros Hn. rewrite <- (append_empty_r (JS.toString (JS.Int n))).
  now apply parseInt_toString_app.
Qed.

End Numerals.

(** ** Version bumping on well-formed versions *)

Section Canonical.

Variables a b c : Z.
Hypothesis Ha : 0 <= a.
Hypothesis Hb : 0 <= b.
Hypothesis Hc : 0 <= c.





End Canonical.







(** ** The prompt: settlement and cleanup *)

Section Settlement.

Import Prompt.

(** What one call of [render] prints. *)
Lemma render_out (offset : Offset) (p : Prompt.t) :
  out (render offset p)
  = (out p
     ++ (match offset with
         | OBool true => []
         | _ => [ClearLines (List.length (options p) + questionLines p)]
         end)
     ++ (match question p with
         | Some (String c q) => [Log (green (String c q ++ newline))]
         | _ => []
         end)
     ++ optionLines (selected (render offset p)) 0 (options p))%list.
Proof.
  unfold render, clear, emit, set_selected.
  destruct offset as [z|[|]]; destruct (question p) as [[|c q]|];
    cbn [out question options selected JS.truthy app];
    rewrite <- ?app_assoc; cbn [app]; rewrite ?app_nil_r; reflexivity.
Qed.

Lemma render_isTTY (offset : Offset) (p : Prompt.t) :
  isTTY (render offset p) = isTTY p.
Proof.
  unfold render.
  destruct offset as [z|[|]]; cbn; destruct (question p) as [[|c q]|]; reflexivity.
Qed.

Lemma rawMode_app (a b : list Output) :
  Forall (fun o => match o with RawMode _ => False | _ => True end) b ->
  rawMode (a ++ b) = rawMode a.
Proof.
  unfold rawMode. rewrite fold_left_app. generalize (fold_left
    (fun on o => match o with RawMode x => x | _ => on end) a false).
  induction 1 as [|o b Ho _ IH]; [reflexivity|].
  cbn. destruct o; try contradiction; apply IH.
Qed.

Lemma rawMode_last (a : list Output) (on : bool) :
  rawMode (a ++ [RawMode on]) = on.
Proof. unfold rawMode. now rewrite fold_left_app. Qed.

Lemma optionLines_no_rawMode (sel : JS.number) (opts : list string) :
  forall i : nat,
    Forall (fun o => match o with RawMode _ => False | _ => True end)
      (optionLines sel i opts).
Proof. induction opts as [|o opts IH]; intros i; cbn; constructor; auto. Qed.

Lemma render_rawMode (offset : Offset) (p : Prompt.t) :
  rawMode (out (render offset p)) = rawMode (out p).
Proof.
  rewrite render_out. apply rawMode_app.
  apply Forall_app; split; [|apply Forall_app; split].
  - destruct offset as [z|[|]]; repeat constructor.
  - destruct (question p) as [[|c q]|]; repeat constructor.
  - apply optionLines_no_rawMode.
Qed.

Lemma exit_tidy (key : option string) (p : Prompt.t) :
  promise p = Pending -> listeners p = 1%nat -> rawMode (out p) = isTTY p ->
  keys (exit key p) = keys p /\ selected (exit key p) = selected p /\
  listeners (exit key p) = 0%nat /\ rawMode (out (exit key p)) = false /\
  promise (exit key p)
  = Done (match key with
          | Some (String c k) => Resolved (String c k)
          | _ => Rejected key
          end).
Proof.
  intros Hp Hl Hraw. unfold exit, events, settle, clear, emit, set_listeners.
  destruct key as [[|c k]|]; destruct (isTTY p) eqn:Ht;
    cbn [isTTY listeners question options keys selected promise out JS.truthy];
    rewrite ?Ht;
    cbn [isTTY listeners question options keys selected promise out JS.truthy];
    rewrite Hp, Hl, ?rawMode_last;
    (repeat split; try reflexivity);
    (rewrite rawMode_app by (repeat constructor)); exact Hraw.
Qed.

Lemma handler_tidy (k : KeyPressEvent) (p : Prompt.t) :
  promise p = Pending -> listeners p = 1%nat -> rawMode (out p) = isTTY p ->
  tidy (keys p) (handler k p).
Proof.
  intros Hp Hl Hraw.
  assert (Hexit : forall key, (key = None \/ key = selectedKey p) ->
                               tidy (keys p) (exit key p)).
  { intros key Hkey.
    destruct (exit_tidy key p Hp Hl Hraw) as (Ek & Es & El & Er & Ep).
    split; [exact Ek|]. right. split; [exact El|]. split; [exact Er|].
    eexists; split; [exact Ep|]. intros v Hv.
    destruct key as [[|c r]|]; inversion Hv; subst v.
    destruct Hkey as [Hkey|Hkey]; [discriminate|].
    split; [|discriminate].
    unfold selectedKey. rewrite Es, Ek. exact (eq_sym Hkey). }
  assert (Hrender : forall off, tidy (keys p) (render off p)).
  { intros off. destruct (render_frame off p) as (Fl & _ & Fk & Fp).
    split; [exact Fk|]. left.
    rewrite Fp, Fl, render_rawMode, render_isTTY. auto. }
  assert (Hsame : tidy (keys p) p) by (split; [reflexivity|left; auto]).
  destruct k as [nm c]. unfold handler; cbn [name ctrl].
  destruct nm as [nm|]; [|exact Hsame].
  destruct (String.eqb_spec nm "up") as [->|]; [apply Hrender|].
  destruct (String.eqb_spec nm "down") as [->|]; [apply Hrender|].
  destruct (String.eqb_spec nm "return") as [->|]; [apply Hexit; now right|].
  destruct (String.eqb_spec nm "escape") as [->|]; [apply Hexit; now left|].
  destruct (String.eqb_spec nm "c") as [->|].
  - destruct c as [[|]|]; auto.
  - repeat (match goal with
            | |- context [match ?x with _ => _ end] => destruct x; try exact Hsame
            end); congruence.
Qed.

Lemma keypress_tidy (ks : list string) (k : KeyPressEvent) (p : Prompt.t) :
  tidy ks p -> tidy ks (keypress k p).
Proof.
  intros (Hk & [(Hp & Hl & Hraw)|(Hl & Hrest)]).
  - rewrite (keypress_once _ _ Hl). subst ks. now apply handler_tidy.
  - rewrite (keypress_idle _ _ Hl). split; [exact Hk|right; auto].
Qed.

Lemma run_tidy (ks : list string) (input : list KeyPressEvent) :
  forall p, tidy ks p -> tidy ks (run input p).
Proof.
  induction input as [|k input IH]; intros p Hp; [exact Hp|].
  cbn [run fold_left]. apply IH. now apply keypress_tidy.
Qed.

Lemma select_tidy (tty : bool) (q : option string) (o : PromptOptions) :
  tidy (optionKeys o) (select q o (new tty)).
Proof.
  unfold select.
  set (p := events true _).
  assert (Hp : keys p = optionKeys o /\ promise p = Pending /\ listeners p = 1%nat /\
               rawMode (out p) = isTTY p).
  { subst p. unfold events. cbn. destruct tty; cbn; auto. }
  destruct Hp as (Hk & Hp & Hl & Hraw).
  destruct (render_frame (OBool true) p) as (Fl & _ & Fk & Fp).
  split; [congruence|]. left.
  rewrite Fp, Fl, render_rawMode, render_isTTY. auto.
Qed.

Lemma handler_isTTY (k : KeyPressEvent) (p : Prompt.t) :
  isTTY (handler k p) = isTTY p.
Proof.
  assert (Hexit : forall key, isTTY (exit key p) = isTTY p).
  { intros key. unfold exit, events, settle, clear, emit, set_listeners.
    destruct key as [[|c r]|]; destruct (isTTY p) eqn:Ht; cbn; rewrite ?Ht; cbn; auto. }
  destruct k as [nm c]. unfold handler; cbn [name ctrl].
  destruct nm as [nm|]; [|reflexivity].
  destruct (String.eqb_spec nm "up") as [->|]; [apply render_isTTY|].
  destruct (String.eqb_spec nm "down") as [->|]; [apply render_isTTY|].
  destruct (String.eqb_spec nm "return") as [->|]; [apply Hexit|].
  destruct (String.eqb_spec nm "escape") as [->|]; [apply Hexit|].
  destruct (String.eqb_spec nm "c") as [->|].
  - destruct c as [[|]|]; auto.
  - repeat (match goal with
            | |- context [match ?x with _ => _ end] => destruct x; try reflexivity
            end); congruence.
Qed.

Lemma run_isTTY (input : list KeyPressEvent) :
  forall p, isTTY (run input p) = isTTY p.
Proof.
  induction input as [|k input IH]; intros p; [reflexivity|].
  cbn [run fold_left]. rewrite IH. unfold keypress.
  induction (listeners p) as [|n IHn]; [reflexivity|].
  cbn [Nat.iter nat_rect]. now rewrite handler_isTTY.
Qed.

Lemma select_isTTY (tty : bool) (q : option string) (o : PromptOptions) :
  isTTY (select q o (new tty)) = tty.
Proof. unfold select. rewrite render_isTTY. unfold events. cbn. now destruct tty. Qed.

(** The same for a prompt that is used again after it has settled. *)
Lemma select_again_tidy (p : Prompt.t) (q : option string) (o : PromptOptions) :
  listeners p = 0%nat -> rawMode (out p) = false ->
  tidy (optionKeys o) (select q o p).
Proof.
  intros Hl0 Hraw0. unfold select.
  set (p1 := events true _).
  assert (Hp : keys p1 = optionKeys o /\ promise p1 = Pending /\ listeners p1 = 1%nat /\
               rawMode (out p1) = isTTY p1).
  { subst p1. unfold events, emit, set_listeners.
    cbn [isTTY listeners question options keys selected promise out].
    destruct (isTTY p) eqn:Ht;
      cbn [isTTY listeners question options keys selected promise out];
      rewrite Hl0, ?rawMode_last; auto. }
  destruct Hp as (Hk & Hp & Hl & Hraw).
  destruct (render_frame (OBool true) p1) as (Fl & _ & Fk & Fp).
  split; [congruence|]. left.
  rewrite Fp, Fl, render_rawMode, render_isTTY. auto.
Qed.

Lemma tidy_resolved (ks : list string) (p : Prompt.t) (v : string) :
  tidy ks p -> promise p = Done (Resolved v) ->
  In v ks /\ listeners p = 0%nat /\ rawMode (out p) = false.
Proof.
  intros (Hk & [(Hp & _)|(Hl & Hraw & s & Hs & Hv)]) Hres; [congruence|].
  repeat split; try assumption.
  rewrite Hs in Hres. injection Hres as ->.
  destruct (Hv v eq_refl) as (Hsel & _).
  rewrite <- Hk. unfold selectedKey in Hsel.
  destruct (selected p) as [|z]; [discriminate|].
  destruct (z <? 0); [discriminate|].
  exact (nth_error_In _ _ Hsel).
Qed.

Lemma run_idle (input : list KeyPressEvent) (p : Prompt.t) :
  listeners p = 0%nat -> run input p = p.
Proof.
  intros Hl. induction input as [|k input IH]; [reflexivity|].
  cbn [run fold_left]. now rewrite (keypress_idle _ _ Hl).
Qed.

End Settlement.

(** X4: whatever is typed, [select] leaves the prompt tidy: while the
    promise is pending the handler is subscribed exactly once and raw
    mode is on exactly on a terminal; once it is settled the handler is
    removed and raw mode is off.  A resolved promise carries the key of the
    option selected at that moment, which is one of the keys given and not
    empty. *)
Theorem select_cleans_up (tty : bool) (q : option string) (o : PromptOptions)
    (input : list KeyPressEvent) :
  (Prompt.promise (Prompt.run input (Prompt.select q o (Prompt.new tty))) = Pending /\
   Prompt.listeners (Prompt.run input (Prompt.select q o (Prompt.new tty))) = 1%nat /\
   rawMode (Prompt.out (Prompt.run input (Prompt.select q o (Prompt.new tty)))) = tty) \/
  (Prompt.listeners (Prompt.run input (Prompt.select q o (Prompt.new tty))) = 0%nat /\
   rawMode (Prompt.out (Prompt.run input (Prompt.select q o (Prompt.new tty)))) = false /\
   exists s,
     Prompt.promise (Prompt.run input (Prompt.select q o (Prompt.new tty))) = Done s /\
     forall v, s = Resolved v ->
       Prompt.selectedKey (Prompt.run input (Prompt.select q o (Prompt.new tty))) = Some v /\
       In v (Prompt.optionKeys o) /\ v <> "").
Proof.
  pose proof (run_tidy _ input _ (select_tidy tty q o)) as (Hk & H).
  pose proof (run_isTTY input (Prompt.select q o (Prompt.new tty))) as Ht.
  rewrite select_isTTY in Ht.
  set (p := Prompt.run input (Prompt.select q o (Prompt.new tty))) in *.
  destruct H as [(Hp & Hl & Hraw)|(Hl & Hraw & s & Hs & Hv)].
  - left. repeat split; congruence.
  - right. repeat split; try assumption.
    exists s. split; [exact Hs|]. intros v Hres.
    destruct (Hv v Hres) as (Hsel & Hne). repeat split; try assumption.
    rewrite <- Hk. unfold Prompt.selectedKey in Hsel.
    destruct (Prompt.selected p) as [|z]; [discriminate|].
    destruct (z <? 0); [discriminate|].
    exact (nth_error_In _ _ Hsel).
Qed.

(** X5: Escape, or Ctrl+C, pressed while the prompt waits rejects the
    promise with no value, and the prompt takes no notice of any key typed
    afterwards. *)
Theorem select_cancel_rejects (tty : bool) (q : option string) (o : PromptOptions)
    (input more : list KeyPressEvent) (k : KeyPressEvent) :
  Prompt.promise (Prompt.run input (Prompt.select q o (Prompt.new tty))) = Pending ->
  name k = Some "escape" \/ (name k = Some "c" /\ ctrl k = Some true) ->
  Prompt.promise
    (Prompt.keypress k (Prompt.run input (Prompt.select q o (Prompt.new tty))))
  = Done (Rejected None) /\
  Prompt.run more
    (Prompt.keypress k (Prompt.run input (Prompt.select q o (Prompt.new tty))))
  = Prompt.keypress k (Prompt.run input (Prompt.select q o (Prompt.new tty))).
Proof.
  intros Hpending Hk.
  pose proof (run_tidy _ input _ (select_tidy tty q o)) as (_ & H).
  set (p := Prompt.run input (Prompt.select q o (Prompt.new tty))) in *.
  destruct H as [(Hp & Hl & Hraw)|(_ & _ & s & Hs & _)]; [|congruence].
  rewrite (keypress_once _ _ Hl).
  assert (Hexit : Prompt.handler k p = Prompt.exit None p).
  { destruct k as [nm c]; cbn in Hk. destruct Hk as [->|(-> & ->)]; reflexivity. }
  rewrite Hexit.
  destruct (exit_tidy None p Hp Hl Hraw) as (_ & _ & El & _ & Ep).
  split; [exact Ep|]. now apply run_idle.
Qed.

Lemma select_cancel_rejects_witness :
  Prompt.promise
    (Prompt.keypress key_ctrl_c
       (Prompt.run [key_down]
          (Prompt.select (Some "Select an action:")
             (OfObject [("publish", "Publish"); ("build", "Build"); ("clean", "Clean")])
             (Prompt.new true))))
  = Done (Rejected None).
Proof.
  refine (proj1 (select_cancel_rejects true (Some "Select an action:")
                   (OfObject [("publish", "Publish"); ("build", "Build"); ("clean", "Clean")])
                   [key_down] [] key_ctrl_c _ _)).
  - reflexivity.
  - right. split; reflexivity.
Defined.

Section Navigation.

Import Prompt.

Lemma keypress_up_selected (n : nat) (c : option bool) (p : Prompt.t) (z : Z) :
  navigable n p -> selected p = JS.Int z ->
  selected (keypress (mkKey (Some "up") c) p) = JS.Int ((z - 1) mod Z.of_nat n).
Proof.
  intros (Hl & Ho & z' & Hz' & Hr) Hz.
  rewrite Hz in Hz'; injection Hz' as Hz'; subst z'.
  rewrite (keypress_once _ _ Hl).
  change (handler (mkKey (Some "up") c) p) with (render (ONumber (-1)) p).
  rewrite render_selected, Hz, Ho. apply wrap_step; lia.
Qed.

(** The navigation keys change neither the promise nor what is asked. *)
Lemma run_navigation_frame (input : list KeyPressEvent) :
  Forall (fun k => name k = Some "up" \/ name k = Some "down") input ->
  forall p, listeners p = 1%nat ->
    listeners (run input p) = 1%nat /\ promise (run input p) = promise p /\
    keys (run input p) = keys p /\ options (run input p) = options p /\
    question (run input p) = question p.
Proof.
  assert (Hq : forall off p, question (render off p) = question p).
  { intros off p. unfold render, clear, emit, set_selected.
    destruct off as [z|[|]]; cbn [question];
      destruct (question p) as [[|c q]|] eqn:E; cbn [question JS.truthy];
      rewrite ?E; reflexivity. }
  induction 1 as [|k input Hk _ IH]; intros p Hl; [auto|].
  cbn [run fold_left]. fold (run input (keypress k p)).
  rewrite (keypress_once _ _ Hl).
  assert (Hr : exists off, handler k p = render off p).
  { destruct k as [nm c]; cbn in Hk. destruct Hk as [->| ->]; eexists; reflexivity. }
  destruct Hr as (off & ->).
  destruct (render_frame off p) as (Fl & Fo & Fk & Fp).
  destruct (IH (render off p)) as (Il & Ip & Ik & Io & Iq); [congruence|].
  rewrite Il, Ip, Ik, Io, Iq, Hq. auto.
Qed.

Lemma run_app (a b : list KeyPressEvent) (p : Prompt.t) :
  run (a ++ b) p = run b (run a p).
Proof. unfold run. apply fold_left_app. Qed.

Lemma optionKeys_length (o : PromptOptions) :
  List.length (optionKeys o) = List.length (optionValues o).
Proof. destruct o; cbn; now rewrite ?length_map. Qed.

End Navigation.

(** X6: on a menu of [n >= 1] options "up" and "down" undo each other,
    and "up" on the first option selects the last one. *)
Theorem navigation_inverse (n : nat) (p : Prompt.t) (z : Z) :
  navigable n p -> Prompt.selected p = JS.Int z ->
  Prompt.selected (Prompt.keypress key_down (Prompt.keypress key_up p)) = JS.Int z /\
  Prompt.selected (Prompt.keypress key_up (Prompt.keypress key_down p)) = JS.Int z /\
  (z = 0 -> Prompt.selected (Prompt.keypress key_up p) = JS.Int (Z.of_nat n - 1)).
Proof.
  intros Hnav Hz. unfold key_up, key_down.
  assert (Hr : 0 <= z < Z.of_nat n).
  { destruct Hnav as (_ & _ & z' & Hz' & Hr). congruence. }
  pose proof (keypress_up_selected n None p z Hnav Hz) as Hup.
  destruct (keypress_down n None p z Hnav Hz) as (Hnav_d & Hdown).
  pose proof (keypress_up n None p Hnav) as Hnav_u.
  split; [|split].
  - destruct (keypress_down n None _ _ Hnav_u Hup) as (_ & ->).
    f_equal. rewrite Zplus_mod_idemp_l.
    replace (z - 1 + 1) with z by lia. now apply Z.mod_small.
  - rewrite (keypress_up_selected n None _ _ Hnav_d Hdown).
    f_equal. rewrite Zminus_mod_idemp_l.
    replace (z + 1 - 1) with z by lia. now apply Z.mod_small.
  - intros ->. rewrite Hup. f_equal.
    replace (0 - 1) with (Z.of_nat n - 1 + -1 * Z.of_nat n) by lia.
    rewrite Z.mod_add by lia. apply Z.mod_small. lia.
Qed.

Lemma navigation_inverse_witness :
  Prompt.selected
    (Prompt.keypress key_up
       (Prompt.select None (OfArray ["a"; "b"; "c"]) (Prompt.new true)))
  = JS.Int 2.
Proof.
  refine (proj2 (proj2 (navigation_inverse 3
            (Prompt.select None (OfArray ["a"; "b"; "c"]) (Prompt.new true)) 0 _ _)) _).
  - repeat split. exists 0. split; [reflexivity|lia].
  - reflexivity.
  - reflexivity.
Defined.

(** X7: [k] "down" keys and then Enter resolve the promise with the key
    of option [k mod N], when that key is not the empty string. *)
Theorem select_enter_after_downs (tty : bool) (q : option string) (o : PromptOptions)
    (k : nat) (key : string) :
  nth_error (Prompt.optionKeys o) (k mod List.length (Prompt.optionKeys o)) = Some key ->
  key <> "" ->
  Prompt.promise
    (Prompt.run (repeat key_down k ++ [key_return])
       (Prompt.select q o (Prompt.new tty)))
  = Done (Resolved key).
Proof.
  intros Hkey Hne.
  assert (Hn : (0 < List.length (Prompt.optionValues o))%nat).
  { rewrite <- optionKeys_length.
    destruct (Prompt.optionKeys o) as [|k0 ks]; [|cbn; lia].
    exfalso. revert Hkey. generalize (k mod List.length (@nil string))%nat.
    intros [|i]; discriminate. }
  destruct (select_navigable tty q o Hn) as (Hnav & H0).
  pose proof (select_tidy tty q o) as (Hk0 & Ht0).
  assert (Hdowns : Forall (fun e => name e = Some "down") (repeat key_down k)).
  { apply Forall_forall. intros e He. now apply repeat_spec in He as ->. }
  assert (Hnavkeys : Forall (fun e => name e = Some "up" \/ name e = Some "down")
                            (repeat key_down k)).
  { apply Forall_forall. intros e He. apply repeat_spec in He as ->. now right. }
  pose proof (run_downs _ _ Hdowns _ 0 Hnav H0) as Hsel.
  destruct Hnav as (Hl & Hnav').
  destruct (run_navigation_frame _ Hnavkeys _ Hl) as (Rl & Rp & Rk & _ & _).
  destruct Ht0 as [(Hp & _ & Hraw)|(Hl0 & _)]; [|congruence].
  rewrite run_app. cbn [Prompt.run fold_left].
  set (p := Prompt.run (repeat key_down k) _) in *.
  rewrite (keypress_once _ _ Rl).
  change (Prompt.handler key_return p) with (Prompt.exit (Prompt.selectedKey p) p).
  assert (Hselected : Prompt.selectedKey p = Some key).
  { unfold Prompt.selectedKey. rewrite Hsel, repeat_length, Z.add_0_l.
    rewrite <- optionKeys_length in *.
    rewrite <- Nat2Z.inj_mod.
    destruct (Z.ltb_spec (Z.of_nat (k mod List.length (Prompt.optionKeys o))) 0); [lia|].
    rewrite Nat2Z.id, Rk, Hk0. exact Hkey. }
  rewrite Hselected.
  assert (Hp' : Prompt.promise p = Pending) by congruence.
  destruct (exit_settles (Some key) p Hp' Rl) as (_ & ->).
  destruct key; [contradiction|reflexivity].
Qed.

Lemma select_enter_after_downs_witness :
  Prompt.promise
    (Prompt.run (repeat key_down 5 ++ [key_return])
       (Prompt.select (Some "Select version type to increase:")
          (OfObject [("rc", "RC (Release Candidate)"); ("patch", "Patch");
                     ("minor", "Minor"); ("major", "Major")])
          (Prompt.new true)))
  = Done (Resolved "patch").
Proof.
  apply (select_enter_after_downs true (Some "Select version type to increase:")
           (OfObject [("rc", "RC (Release Candidate)"); ("patch", "Patch");
                      ("minor", "Minor"); ("major", "Major")]) 5 "patch").
  - reflexivity.
  - discriminate.
Defined.

(** ** The prompt: what it draws *)

Section Frames.

Import Prompt.






End Frames.



(** ** The workflow: what reaches the disk *)

Section Disk.

Lemma strictNotEqual_refl (a : option JSON) : strictNotEqual a a = false.
Proof. destruct a as [j|]; cbn; [now rewrite JSON_eqb_refl|reflexivity]. Qed.

(** [build] as a function of the two exit codes. *)
Lemma build_completion (env : Env) (f : Frame) :
  fst (build env f)
  = match exitCode env clean_cmd with
    | Some 0 =>
        match exitCode env build_cmd with
        | Some 0 => Normal tt
        | Some code => Throw (Number code)
        | None => Throw Null
        end
    | Some code => Throw (Number code)
    | None => Throw Null
    end /\
  file (world (snd (build env f))) = file (world f) /\
  writes (world (snd (build env f))) = writes (world f) /\
  packageJson (snd (build env f)) = packageJson f.
Proof.
  destruct f as [[text ws cs] obj].
  cbv beta iota zeta delta
    [build clean DebugExec bind ret throw console_log print world packageJson
     file writes console].
  destruct (exitCode env clean_cmd) as [[|c|c]|];
    [destruct (exitCode env build_cmd) as [[|c|c]|]|..]; cbn; auto.
Qed.

End Disk.

(** X9: [build] completes normally exactly when the clean command and the
    compile command both exit with code 0, and in no case does it touch
    the manifest, on disk or in memory. *)
Theorem build_succeeds_iff (env : Env) (f : Frame) :
  (fst (build env f) = Normal tt <-> buildSucceeds env) /\
  file (world (snd (build env f))) = file (world f) /\
  writes (world (snd (build env f))) = writes (world f) /\
  packageJson (snd (build env f)) = packageJson f.
Proof.
  destruct (build_completion env f) as (Hc & Hrest).
  split; [|exact Hrest]. rewrite Hc. unfold buildSucceeds.
  destruct (exitCode env clean_cmd) as [[|c|c]|];
    [destruct (exitCode env build_cmd) as [[|c|c]|]|..];
    split; try (intros (H1 & H2)); try intros H; try discriminate; auto.
Qed.

Ltac run_publish :=
  cbv beta iota zeta delta
    [try_finally try_catch tryBlock catchBlock
     finallyBlock build clean DebugExec bind ret throw console_log console_error
     print modify readPackage savePackageJson awaitSelect message template assign
     world packageJson file writes console fst snd].

Ltac settle_guards Hv :=
  rewrite ?get_remove_same, ?strictNotEqual_refl;
  rewrite ?Hv, ?strictNotEqual_version, ?String.eqb_refl; cbn [negb];
  rewrite ?strictNotEqual_refl.

(** Either [publish] leaves the disk alone, or the build went through and
    the user chose to publish. *)
Lemma publish_disk_cases
    (JSON_parse : string -> string + PackageJson)
    (JSON_stringify : PackageJson -> string) (env : Env)
    (versionType : VersionType) (isRc incrementRcOnly : bool) (w : World) :
  (file (snd (publish JSON_parse JSON_stringify env versionType isRc incrementRcOnly w))
   = file w /\
   writes (snd (publish JSON_parse JSON_stringify env versionType isRc incrementRcOnly w))
   = writes w) \/
  (buildSucceeds env /\
   exists obj originalVersion,
     JSON_parse (file w) = inr obj /\
     get "version" obj = Some (JString originalVersion) /\
     Prompt.promise
       (confirmPrompt env (bumpVersion originalVersion versionType isRc incrementRcOnly))
     = Done (Resolved "publish")).
Proof.
  destruct w as [text ws cs]. unfold publish, getPackageJson. cbn [file].
  destruct (JSON_parse text) as [msg|obj] eqn:Hparse; [left; split; reflexivity|].
  destruct (get "version" obj) as [[| | |originalVersion| |]|] eqn:Hv;
    cbn [versionString]; try (left; split; reflexivity).
  set (nv := bumpVersion originalVersion versionType isRc incrementRcOnly).
  pose proof (run_tidy _ (confirmKeys env) _
                (select_tidy (stdinIsTTY env)
                   (Some ("Ready to publish version " ++ nv ++ ":"))
                   (OfObject [("publish", "Publish " ++ nv); ("cancel", "Cancel")])))
    as Hprompt.
  fold (confirmPrompt env nv) in Hprompt.
  run_publish. fold_prompt env nv.
  destruct (exitCode env clean_cmd) as [[|c|c]|] eqn:Hclean;
    try (settle_guards Hv; left; split; reflexivity).
  destruct (exitCode env build_cmd) as [[|c|c]|] eqn:Hbuild;
    try (settle_guards Hv; left; split; reflexivity).
  destruct (Prompt.promise (confirmPrompt env nv)) as [| |[key|[reason|]]] eqn:Hp;
    try (settle_guards Hv; left; split; reflexivity).
  destruct (tidy_resolved _ _ key Hprompt Hp) as (Hin & _).
  cbn in Hin. destruct Hin as [<-|[<-|[]]].
  - right. split; [split; assumption|]. exists obj, originalVersion. auto.
  - cbn [String.eqb Ascii.eqb Bool.eqb]. settle_guards Hv. left; split; reflexivity.
Qed.

(** X10: [publish] writes the manifest only after the build went through
    and the user chose to publish at the confirmation prompt: a run that
    changes the file, or writes at all, is a run in which both commands of
    the build exited with 0 and the prompt was resolved with [publish]. *)
Theorem publish_writes_only_when_confirmed
    (JSON_parse : string -> string + PackageJson)
    (JSON_stringify : PackageJson -> string) (env : Env)
    (versionType : VersionType) (isRc incrementRcOnly : bool) (w : World) :
  file (snd (publish JSON_parse JSON_stringify env versionType isRc incrementRcOnly w))
  <> file w \/
  writes (snd (publish JSON_parse JSON_stringify env versionType isRc incrementRcOnly w))
  <> writes w ->
  buildSucceeds env /\
  exists obj originalVersion,
    JSON_parse (file w) = inr obj /\
    get "version" obj = Some (JString originalVersion) /\
    Prompt.promise
      (confirmPrompt env (bumpVersion originalVersion versionType isRc incrementRcOnly))
    = Done (Resolved "publish").
Proof.
  intros Hchanged.
  destruct (publish_disk_cases JSON_parse JSON_stringify env versionType isRc
              incrementRcOnly w) as [(Hfile & Hwrites)|Hconfirmed].
  - destruct Hchanged as [H|H]; contradiction.
  - exact Hconfirmed.
Qed.

Lemma publish_writes_only_when_confirmed_witness :
  buildSucceeds Sample.allGood /\
  exists obj originalVersion,
    Sample.parse (file Sample.disk) = inr obj /\
    get "version" obj = Some (JString originalVersion) /\
    Prompt.promise
      (confirmPrompt Sample.allGood (bumpVersion originalVersion patch false false))
    = Done (Resolved "publish").
Proof.
  apply (publish_writes_only_when_confirmed
           Sample.parse Sample.stringify Sample.allGood patch false false Sample.disk).
  right. vm_compute. discriminate.
Defined.

Ltac restored :=
  eexists; split; [reflexivity|]; split; [|split];
  [ first [ apply get_set_same | apply get_remove_same
          | rewrite get_set_other, get_remove_same by discriminate; reflexivity ]
  | intros key Hkv Hkd;
    rewrite ?get_set_other, ?get_remove_other, ?get_set_other by congruence;
    rewrite ?get_set_other, ?get_remove_other by congruence; reflexivity
  | rewrite ?get_set_other, ?get_remove_other, ?get_set_same by discriminate;
    rewrite ?get_set_other, ?get_set_same by discriminate; auto ].

(** The disk after [publish], in every run. *)
Lemma publish_disk_restored
    (JSON_parse : string -> string + PackageJson)
    (JSON_stringify : PackageJson -> string) (env : Env)
    (versionType : VersionType) (isRc incrementRcOnly : bool)
    (w : World) (obj : PackageJson) (originalVersion : string) :
  JSON_parse (file w) = inr obj ->
  get "version" obj = Some (JString originalVersion) ->
  diskKept JSON_parse JSON_stringify w
    (snd (publish JSON_parse JSON_stringify env versionType isRc incrementRcOnly w)).
Proof.
  intros Hparse Hv. unfold diskKept.
  destruct (publish_disk_cases
              JSON_parse JSON_stringify env versionType isRc incrementRcOnly w)
    as [Hsame|((Hclean & Hbuild) & obj' & v' & Hparse' & Hv' & Hconfirm)];
    [left; exact Hsame|right].
  rewrite Hparse in Hparse'. injection Hparse' as <-.
  rewrite Hv in Hv'. injection Hv' as <-.
  exists obj.
  enter_publish Hparse Hv nv.
  run_publish. rewrite Hclean, Hbuild.
  fold_prompt env nv. rewrite Hconfirm. cbn [String.eqb Ascii.eqb Bool.eqb].
  rewrite ?get_remove_other, ?get_set_same, ?strictNotEqual_version by discriminate.
  destruct (exitCode env publish_cmd) as [[|c|c]|];
    [destruct (exitCode env (commit_cmd nv)) as [[|c|c]|]|..];
    rewrite ?get_remove_other, ?get_set_same, ?strictNotEqual_version by discriminate;
    try destruct (String.eqb_spec nv originalVersion) as [->|Hne]; cbn [negb];
    rewrite ?get_remove_same, ?get_set_other by discriminate;
    rewrite ?get_remove_same;
    destruct (get "devDependencies" obj) as [dev|] eqn:Hdev; cbn [strictNotEqual];
    eexists; (split; [reflexivity|]); (split; [reflexivity|]);
    (split;
     [ first [ apply get_set_same | apply get_remove_same
             | rewrite get_set_other, get_remove_same by discriminate; reflexivity ]
     | intros key Hkv Hkd;
       rewrite ?get_set_other, ?get_remove_other, ?get_set_other by congruence;
       rewrite ?get_set_other, ?get_remove_other by congruence; reflexivity ]).
Qed.

(** X11: however [publish] ends, the manifest on disk is either left
    untouched or is the text of an object that holds the [devDependencies]
    read at the start, every property other than [version] as it was read,
    and as version either the original or the new one. *)
Theorem publish_keeps_devDependencies
    (JSON_parse : string -> string + PackageJson)
    (JSON_stringify : PackageJson -> string) (env : Env)
    (versionType : VersionType) (isRc incrementRcOnly : bool)
    (w : World) (obj : PackageJson) (originalVersion : string) :
  JSON_parse (file w) = inr obj ->
  get "version" obj = Some (JString originalVersion) ->
  (file (snd (publish JSON_parse JSON_stringify env versionType isRc incrementRcOnly w))
   = file w /\
   writes (snd (publish JSON_parse JSON_stringify env versionType isRc incrementRcOnly w))
   = writes w) \/
  exists final : PackageJson,
    file (snd (publish JSON_parse JSON_stringify env versionType isRc incrementRcOnly w))
    = JSON_stringify final ++ newline /\
    get "devDependencies" final = get "devDependencies" obj /\
    (forall key, key <> "version" -> key <> "devDependencies" ->
       get key final = get key obj) /\
    (get "version" final = Some (JString originalVersion) \/
     get "version" final
     = Some (JString (bumpVersion originalVersion versionType isRc incrementRcOnly))).
Proof.
  intros Hparse Hv.
  destruct (publish_disk_cases
              JSON_parse JSON_stringify env versionType isRc incrementRcOnly w)
    as [Hsame|((Hclean & Hbuild) & obj' & v' & Hparse' & Hv' & Hconfirm)];
    [left; exact Hsame|right].
  rewrite Hparse in Hparse'. injection Hparse' as <-.
  rewrite Hv in Hv'. injection Hv' as <-.
  enter_publish Hparse Hv nv.
  run_publish. rewrite Hclean, Hbuild.
  fold_prompt env nv. rewrite Hconfirm. cbn [String.eqb Ascii.eqb Bool.eqb].
  rewrite ?get_remove_other, ?get_set_same, ?strictNotEqual_version by discriminate.
  destruct (exitCode env publish_cmd) as [[|c|c]|];
    [destruct (exitCode env (commit_cmd nv)) as [[|c|c]|]|..];
    rewrite ?get_remove_other, ?get_set_same, ?strictNotEqual_version by discriminate;
    try destruct (String.eqb_spec nv originalVersion) as [->|Hne]; cbn [negb];
    rewrite ?get_remove_same, ?get_set_other by discriminate;
    rewrite ?get_remove_same;
    destruct (get "devDependencies" obj) as [dev|] eqn:Hdev; cbn [strictNotEqual];
    restored.
Qed.

Lemma publish_keeps_devDependencies_witness :
  (file (snd (publish Sample.parse Sample.stringify Sample.publishKilled minor false false
                Sample.disk)) = file Sample.disk /\
   writes (snd (publish Sample.parse Sample.stringify Sample.publishKilled minor false false
                  Sample.disk)) = writes Sample.disk) \/
  exists final : PackageJson,
    file (snd (publish Sample.parse Sample.stringify Sample.publishKilled minor false false
                 Sample.disk))
    = Sample.stringify final ++ newline /\
    get "devDependencies" final = get "devDependencies" Sample.manifest /\
    (forall key, key <> "version" -> key <> "devDependencies" ->
       get key final = get key Sample.manifest) /\
    (get "version" final = Some (JString "1.0.0") \/
     get "version" final = Some (JString (bumpVersion "1.0.0" minor false false))).
Proof.
  apply (publish_keeps_devDependencies
           Sample.parse Sample.stringify Sample.publishKilled minor false false
           Sample.disk Sample.manifest "1.0.0"); reflexivity.
Defined.

(** ** The workflow: failures and cancellation *)

(** X13: when the package was published but the commit-and-push command
    exits with a code other than 0, the version is rolled back all the
    same: the manifest on disk holds the original version and the
    original [devDependencies], and the exit code is thrown on. *)
Theorem publish_rolls_back_when_commit_fails
    (JSON_parse : string -> string + PackageJson)
    (JSON_stringify : PackageJson -> string) (env : Env)
    (versionType : VersionType) (isRc incrementRcOnly : bool)
    (w : World) (obj : PackageJson) (originalVersion : string) (code : Z) :
  JSON_parse (file w) = inr obj ->
  get "version" obj = Some (JString originalVersion) ->
  buildSucceeds env ->
  Prompt.promise
    (confirmPrompt env (bumpVersion originalVersion versionType isRc incrementRcOnly))
  = Done (Resolved "publish") ->
  exitCode env publish_cmd = Some 0 ->
  exitCode env
    (commit_cmd (bumpVersion originalVersion versionType isRc incrementRcOnly))
  = Some code ->
  code <> 0 ->
  exists (final : PackageJson) (w' : World),
    publish JSON_parse JSON_stringify env versionType isRc incrementRcOnly w
    = (Throw (Number code), w') /\
    file w' = JSON_stringify final ++ newline /\
    get "version" final = Some (JString originalVersion) /\
    get "devDependencies" final = get "devDependencies" obj.
Proof.
  intros Hparse Hversion (Hclean & Hbuild) Hconfirm Hpublish Hcommit Hcode.
  enter_publish Hparse Hversion nv.
  workflow. rewrite Hclean, Hbuild.
  fold_prompt env nv. rewrite Hconfirm. cbn [String.eqb Ascii.eqb Bool.eqb].
  rewrite Hpublish, Hcommit.
  assert (Hthrow : forall (A : Type) (x y : A),
             match code with 0 => x | Z.pos _ | Z.neg _ => y end = y)
    by (intros; destruct code; congruence).
  rewrite Hthrow.
  rewrite get_remove_other, get_set_same, strictNotEqual_version by discriminate.
  destruct (String.eqb_spec nv originalVersion) as [->|Hne]; cbn [negb];
    rewrite ?get_set_other, ?get_remove_same by discriminate;
    rewrite ?get_remove_same;
    destruct (get "devDependencies" obj) as [dev|] eqn:Hdev; cbn [strictNotEqual];
    eexists; eexists; (split; [reflexivity|]); (split; [reflexivity|]); split;
    rewrite ?get_set_other, ?get_remove_other, ?get_set_same by discriminate;
    rewrite ?get_set_other, ?get_set_same, ?get_remove_same by discriminate;
    reflexivity.
Qed.

Lemma publish_rolls_back_when_commit_fails_witness :
  exists (final : PackageJson) (w' : World),
    publish Sample.parse Sample.stringify
      {| stdinIsTTY := true;
         exitCode := fun cmd => if String.eqb cmd (commit_cmd "2.0.0") then Some 128
                                else Some 0;
         confirmKeys := [key_return] |}
      major false false Sample.disk
    = (Throw (Number 128), w') /\
    file w' = Sample.stringify final ++ newline /\
    get "version" final = Some (JString "1.0.0") /\
    get "devDependencies" final = get "devDependencies" Sample.manifest.
Proof.
  apply (publish_rolls_back_when_commit_fails
           Sample.parse Sample.stringify _ major false false
           Sample.disk Sample.manifest "1.0.0" 128).
  - reflexivity.
  - reflexivity.
  - split; reflexivity.
  - reflexivity.
  - reflexivity.
  - reflexivity.
  - discriminate.
Defined.

(** X15: when the clean command or the compile command exits with a code
    other than 0, [publish] throws that code without showing the
    confirmation prompt and without writing anything; the error line it
    prints reads "undefined", for a number has no [message]. *)
Theorem publish_stops_when_build_fails
    (JSON_parse : string -> string + PackageJson)
    (JSON_stringify : PackageJson -> string) (env : Env)
    (versionType : VersionType) (isRc incrementRcOnly : bool)
    (w : World) (obj : PackageJson) (originalVersion : string) (code : Z) :
  JSON_parse (file w) = inr obj ->
  get "version" obj = Some (JString originalVersion) ->
  code <> 0 ->
  (exitCode env clean_cmd = Some code ->
   publish JSON_parse JSON_stringify env versionType isRc incrementRcOnly w
   = (Throw (Number code),
      {| file := file w; writes := writes w;
         console :=
           console w
           ++ [Log (green "Starting publish process..."); Log (green "Running build...");
               Log (green "Running clean...");
               Error (red "Error during publish process: undefined")] |})) /\
  (exitCode env clean_cmd = Some 0 -> exitCode env build_cmd = Some code ->
   publish JSON_parse JSON_stringify env versionType isRc incrementRcOnly w
   = (Throw (Number code),
      {| file := file w; writes := writes w;
         console :=
           console w
           ++ [Log (green "Starting publish process..."); Log (green "Running build...");
               Log (green "Running clean..."); Log (green "Clean completed!");
               Error (red "Error during publish process: undefined")] |})).
Proof.
  intros Hparse Hversion Hcode.
  assert (Hthrow : forall (A : Type) (x y : A),
             match code with 0 => x | Z.pos _ | Z.neg _ => y end = y)
    by (intros; destruct code; congruence).
  split; [intros Hclean|intros Hclean Hbuild];
    enter_publish Hparse Hversion nv; run_publish;
    rewrite Hclean, ?Hbuild, Hthrow; settle_guards Hversion;
    cbn [file writes console]; rewrite <- ?app_assoc; reflexivity.
Qed.

Lemma publish_stops_when_build_fails_witness :
  fst (publish Sample.parse Sample.stringify
         {| stdinIsTTY := true; exitCode := fun _ => Some 2; confirmKeys := [] |}
         minor false false Sample.disk) = Throw (Number 2) /\
  writes (snd (publish Sample.parse Sample.stringify
                 {| stdinIsTTY := true; exitCode := fun _ => Some 2; confirmKeys := [] |}
                 minor false false Sample.disk)) = [].
Proof.
  destruct (publish_stops_when_build_fails
              Sample.parse Sample.stringify
              {| stdinIsTTY := true; exitCode := fun _ => Some 2; confirmKeys := [] |}
              minor false false Sample.disk Sample.manifest "1.0.0" 2)
    as (H & _); try reflexivity; try discriminate.
  rewrite H by reflexivity. split; reflexivity.
Defined.

(** ** [main] *)

(** The action menu once the keys of the session were typed. *)
Ltac run_main :=
  cbv beta iota zeta delta
    [main mainWith mainBody mainCatch awaitSelectOn try_finally try_catch bind ret throw
     console_log console_error print message world packageJson file writes console].

Section MainRuns.

Variable JSON_parse : string -> string + PackageJson.
Variable JSON_stringify : PackageJson -> string.

Lemma skipn_out (p : Prompt.t) (extra : list Output) :
  skipn (List.length (Prompt.out p)) (Prompt.out p ++ extra) = extra.
Proof.
  rewrite skipn_app, skipn_all, Nat.sub_diag. reflexivity.
Qed.

End MainRuns.

(** X16: Escape (or Ctrl+C) at the action menu ends [main] quietly: it
    returns normally, runs no command, writes nothing and prints nothing
    but the menu and the closing blank line. *)
Theorem main_cancel_is_quiet
    (JSON_parse : string -> string + PackageJson)
    (JSON_stringify : PackageJson -> string) (session : Session) (w : World) :
  Prompt.promise
    (Prompt.run (actionKeys session)
       (Prompt.select (Some "Select an action:")
          (OfObject [("publish", "Publish"); ("build", "Build"); ("clean", "Clean")])
          (Prompt.new (stdinIsTTY (run session)))))
  = Done (Rejected None) ->
  main JSON_parse JSON_stringify session w
  = (Normal tt,
     {| file := file w; writes := writes w;
        console :=
          console w
          ++ Prompt.out
               (Prompt.run (actionKeys session)
                  (Prompt.select (Some "Select an action:")
                     (OfObject [("publish", "Publish"); ("build", "Build");
                                ("clean", "Clean")])
                     (Prompt.new (stdinIsTTY (run session)))))
          ++ [Log newline] |}).
Proof.
  intros Hp. destruct w as [text ws cs]. run_main. rewrite Hp.
  cbn [Prompt.out Prompt.new List.length skipn file writes console].
  now rewrite <- app_assoc.
Qed.

Lemma main_cancel_is_quiet_witness :
  fst (main Sample.parse Sample.stringify
         (mkSession Sample.allGood [key_down; key_escape] [] []) Sample.disk)
  = Normal tt.
Proof.
  rewrite (main_cancel_is_quiet Sample.parse Sample.stringify
             (mkSession Sample.allGood [key_down; key_escape] [] []) Sample.disk);
    reflexivity.
Defined.

Section Menus.

Variable JSON_parse : string -> string + PackageJson.
Variables f g : VersionType -> bool -> bool -> World -> Completion unit * World.
Hypothesis same_off_rc :
  forall t r o w, t <> rc -> f t r o w = g t r o w.

Lemma call_same (t : VersionType) (r o : bool) (fr : Frame) :
  t <> rc -> call (f t r o) fr = call (g t r o) fr.
Proof. intros Ht. unfold call. now rewrite same_off_rc. Qed.

Lemma mainBody_same (session : Session) (fr : Frame) :
  mainBody JSON_parse f session fr = mainBody JSON_parse g session fr.
Proof.
  cbv beta iota zeta delta [mainBody awaitSelectOn bind ret throw print].
  pose proof (run_tidy _ (actionKeys session) _
                (select_tidy (stdinIsTTY (run session)) (Some "Select an action:")
                   (OfObject [("publish", "Publish"); ("build", "Build");
                              ("clean", "Clean")]))) as T1.
  set (p1 := Prompt.run (actionKeys session) _) in *.
  destruct (Prompt.promise p1) as [| |[action|[r|]]] eqn:H1; try reflexivity.
  destruct (tidy_resolved _ _ _ T1 H1) as (_ & L1 & R1).
  destruct (String.eqb action "clean"); [reflexivity|].
  destruct (String.eqb action "build"); [reflexivity|].
  destruct (String.eqb action "publish"); [|reflexivity].
  pose proof (run_tidy _ (versionKeys session) _
                (select_again_tidy p1 (Some "Select version type to increase:")
                   (OfObject [("rc", "RC (Release Candidate)"); ("patch", "Patch");
                              ("minor", "Minor"); ("major", "Major")]) L1 R1)) as T2.
  set (p2 := Prompt.run (versionKeys session) _) in *.
  destruct (Prompt.promise p2) as [| |[versionType|[r|]]] eqn:H2; try reflexivity.
  destruct (tidy_resolved _ _ _ T2 H2) as (In2 & L2 & R2).
  cbn in In2. destruct In2 as [<-|[<-|[<-|[<-|[]]]]];
    cbn [String.eqb Ascii.eqb Bool.eqb];
    try (apply call_same; discriminate).
  destruct (currentVersionHasRc JSON_parse _) as [[[|]| |] fr'];
    try reflexivity; [apply call_same; discriminate|].
  pose proof (run_tidy _ (baseKeys session) _
                (select_again_tidy p2 (Some "Select base version type to increase for RC:")
                   (OfObject [("patch", "Patch"); ("minor", "Minor"); ("major", "Major")])
                   L2 R2)) as T3.
  set (p3 := Prompt.run (baseKeys session) _) in *.
  destruct (Prompt.promise p3) as [| |[base|[r|]]] eqn:H3; try reflexivity.
  destruct (tidy_resolved _ _ _ T3 H3) as (In3 & _).
  cbn in In3. destruct In3 as [<-|[<-|[<-|[]]]]; apply call_same; discriminate.
Qed.

End Menus.

(** X17: the menus never hand the type [rc] to [publish]: whatever is
    typed, [main] behaves the same with any two versions of [publish]
    that agree on the types major, minor and patch.  The missing [rc] case
    of the [switch] in [bumpVersion] cannot be reached from the menus. *)
Theorem main_never_publishes_type_rc
    (JSON_parse : string -> string + PackageJson)
    (f g : VersionType -> bool -> bool -> World -> Completion unit * World)
    (session : Session) (w : World) :
  (forall t r o w', t <> rc -> f t r o w' = g t r o w') ->
  mainWith JSON_parse f session w = mainWith JSON_parse g session w.
Proof.
  intros Hfg. unfold mainWith, try_finally, try_catch.
  now rewrite (mainBody_same JSON_parse f g Hfg).
Qed.

Lemma main_never_publishes_type_rc_witness :
  mainWith Sample.parse
    (fun t r o => publish Sample.parse Sample.stringify Sample.allGood t r o)
    (mkSession Sample.allGood [key_return] [key_return] [key_down; key_return])
    Sample.disk
  = mainWith Sample.parse
      (fun t r o w =>
         match t with
         | rc => (Throw Null, w)
         | _ => publish Sample.parse Sample.stringify Sample.allGood t r o w
         end)
      (mkSession Sample.allGood [key_return] [key_return] [key_down; key_return])
      Sample.disk.
Proof.
  apply main_never_publishes_type_rc.
  intros t r o w' Ht. destruct t; [reflexivity..|contradiction].
Defined.

Section Throws.

Variable JSON_parse : string -> string + PackageJson.
Variable JSON_stringify : PackageJson -> string.







End Throws.



Section Kept.

Variable JSON_parse : string -> string + PackageJson.
Variable JSON_stringify : PackageJson -> string.

Lemma kept_refl (w w' : World) :
  file w' = file w -> writes w' = writes w -> diskKept JSON_parse JSON_stringify w w'.
Proof. intros Hf Hw. left. auto. Qed.

(** Only the file and the writes of the two worlds matter. *)
Lemma kept_same (w0 w w1 w' : World) :
  file w0 = file w -> writes w0 = writes w ->
  file w' = file w1 -> writes w' = writes w1 ->
  diskKept JSON_parse JSON_stringify w0 w1 -> diskKept JSON_parse JSON_stringify w w'.
Proof.
  intros Hf Hw Hf' Hw' [(H1 & H2)|(obj & final & Hp & Hfile & Hrest)].
  - left. split; congruence.
  - right. exists obj, final. rewrite <- Hf, Hf'. auto.
Qed.

Lemma kept_start (w0 w w' : World) :
  file w0 = file w -> writes w0 = writes w -> diskKept JSON_parse JSON_stringify w0 w' -> diskKept JSON_parse JSON_stringify w w'.
Proof. intros Hf Hw. now apply kept_same. Qed.

Lemma publish_kept (env : Env) (t : VersionType) (r o : bool) (w : World) :
  diskKept JSON_parse JSON_stringify w (snd (publish JSON_parse JSON_stringify env t r o w)).
Proof.
  destruct (publish_disk_cases JSON_parse JSON_stringify env t r o w)
    as [Hsame|(_ & obj & v & Hparse & Hv & _)]; [left; exact Hsame|].
  exact (publish_disk_restored JSON_parse JSON_stringify env t r o w obj v Hparse Hv).
Qed.

Lemma call_publish_kept (env : Env) (t : VersionType) (r o : bool) (fr : Frame) :
  diskKept JSON_parse JSON_stringify (world fr) (world (snd (call (publish JSON_parse JSON_stringify env t r o) fr))).
Proof.
  unfold call.
  pose proof (publish_kept env t r o (world fr)) as H.
  destruct (publish JSON_parse JSON_stringify env t r o (world fr)) as [c w'].
  exact H.
Qed.

Lemma clean_kept (env : Env) (fr : Frame) :
  diskKept JSON_parse JSON_stringify (world fr) (world (snd (clean env fr))).
Proof.
  destruct fr as [[text ws cs] obj].
  cbv beta iota zeta delta
    [clean DebugExec bind ret throw console_log print world packageJson
     file writes console].
  destruct (exitCode env clean_cmd) as [[|c|c]|]; now apply kept_refl.
Qed.

Lemma build_kept (env : Env) (fr : Frame) :
  diskKept JSON_parse JSON_stringify (world fr) (world (snd (build env fr))).
Proof.
  destruct (build_completion env fr) as (_ & Hf & Hw & _). now apply kept_refl.
Qed.

Lemma mainBody_kept (session : Session) (w : World) :
  diskKept JSON_parse JSON_stringify w
    (world (snd (mainBody JSON_parse (publish JSON_parse JSON_stringify (run session))
                   session {| world := w; packageJson := [] |}))).
Proof.
  destruct w as [text ws cs].
  cbv beta iota zeta delta [mainBody awaitSelectOn bind ret throw print].
  cbn [world packageJson file writes console].
  destruct (Prompt.promise _) as [| |[action|[r|]]]; try (now apply kept_refl).
  destruct (String.eqb action "clean");
    [eapply kept_start; [| |apply clean_kept]; reflexivity|].
  destruct (String.eqb action "build");
    [eapply kept_start; [| |apply build_kept]; reflexivity|].
  destruct (String.eqb action "publish"); [|now apply kept_refl].
  destruct (Prompt.promise _) as [| |[versionType|[r|]]]; try (now apply kept_refl).
  destruct (String.eqb versionType "rc");
    [|eapply kept_start; [| |apply call_publish_kept]; reflexivity].
  unfold currentVersionHasRc, getPackageJson. cbn [world file].
  destruct (JSON_parse text) as [msg|obj]; [now apply kept_refl|].
  destruct (get "version" obj) as [[| | |v|items|]|]; try (now apply kept_refl);
    (match goal with
     | |- context [if ?b then _ else _] => destruct b
     end);
    try (eapply kept_start; [| |apply call_publish_kept]; reflexivity);
    (destruct (Prompt.promise _) as [| |[base|[r|]]]; try (now apply kept_refl);
     eapply kept_start; [| |apply call_publish_kept]; reflexivity).
Qed.

End Kept.

(** X19: whatever is chosen in the menus and however the commands end,
    [main] leaves the manifest on disk alone or leaves the text of an
    object that has the [devDependencies], and every property other than
    [version], of the manifest it found. *)
Theorem main_keeps_manifest
    (JSON_parse : string -> string + PackageJson)
    (JSON_stringify : PackageJson -> string) (session : Session) (w : World) :
  diskKept JSON_parse JSON_stringify w (snd (main JSON_parse JSON_stringify session w)).
Proof.
  unfold main, mainWith, try_finally, try_catch.
  pose proof (mainBody_kept JSON_parse JSON_stringify session w) as Hkept.
  destruct (mainBody _ _ _ _) as [[[]|thrown|] [[text ws cs] obj]]; cbn [snd world] in *.
  - cbv beta iota zeta delta [console_log print world file writes console].
    eapply kept_same; [reflexivity..|exact Hkept].
  - destruct thrown;
      cbv beta iota zeta delta
        [mainCatch message bind ret throw console_log console_error print
         world file writes console packageJson];
      cbn [snd]; eapply kept_same; try exact Hkept; reflexivity.
  - exact Hkept.
Qed.

(** ** More on what is published and reported *)

(** X20: once the user has confirmed, the first thing [publish] writes,
    the manifest that [npm publish] finds, is the text of an object with
    the new version, without [devDependencies] and with every other
    property as read; this holds however the publish and commit commands
    end. *)
Theorem publish_writes_stripped_manifest_first
    (JSON_parse : string -> string + PackageJson)
    (JSON_stringify : PackageJson -> string) (env : Env)
    (versionType : VersionType) (isRc incrementRcOnly : bool)
    (w : World) (obj : PackageJson) (originalVersion : string) :
  JSON_parse (file w) = inr obj ->
  get "version" obj = Some (JString originalVersion) ->
  buildSucceeds env ->
  Prompt.promise
    (confirmPrompt env (bumpVersion originalVersion versionType isRc incrementRcOnly))
  = Done (Resolved "publish") ->
  exists (stripped : PackageJson) (later : list string),
    writes (snd (publish JSON_parse JSON_stringify env versionType isRc incrementRcOnly w))
    = (writes w ++ (JSON_stringify stripped ++ newline)%string :: later)%list /\
    get "devDependencies" stripped = None /\
    get "version" stripped
    = Some (JString (bumpVersion originalVersion versionType isRc incrementRcOnly)) /\
    (forall key, key <> "version" -> key <> "devDependencies" ->
       get key stripped = get key obj) /\
    (List.length later <= 2)%nat.
Proof.
  intros Hparse Hv (Hclean & Hbuild) Hconfirm.
  enter_publish Hparse Hv nv.
  run_publish. rewrite Hclean, Hbuild.
  fold_prompt env nv. rewrite Hconfirm. cbn [String.eqb Ascii.eqb Bool.eqb].
  exists (remove "devDependencies" (set "version" (JString nv) obj)).
  assert (Hstripped :
            get "devDependencies" (remove "devDependencies" (set "version" (JString nv) obj))
            = None /\
            get "version" (remove "devDependencies" (set "version" (JString nv) obj))
            = Some (JString nv) /\
            (forall key, key <> "version" -> key <> "devDependencies" ->
               get key (remove "devDependencies" (set "version" (JString nv) obj))
               = get key obj)).
  { split; [apply get_remove_same|]. split.
    - rewrite get_remove_other, get_set_same by discriminate. reflexivity.
    - intros key H1 H2. rewrite get_remove_other, get_set_other by congruence.
      reflexivity. }
  destruct Hstripped as (S1 & S2 & S3).
  rewrite ?get_remove_other, ?get_set_same, ?strictNotEqual_version by discriminate.
  destruct (exitCode env publish_cmd) as [[|c|c]|];
    [destruct (exitCode env (commit_cmd nv)) as [[|c|c]|]|..];
    rewrite ?get_remove_other, ?get_set_same, ?strictNotEqual_version by discriminate;
    try destruct (String.eqb_spec nv originalVersion) as [->|Hne]; cbn [negb];
    rewrite ?get_remove_same, ?get_set_other by discriminate;
    rewrite ?get_remove_same;
    destruct (get "devDependencies" obj) as [dev|] eqn:Hdev; cbn [strictNotEqual];
    rewrite <- ?app_assoc; cbn [app];
    eexists; (split; [reflexivity|]); repeat split; auto; cbn; lia.
Qed.

Lemma publish_writes_stripped_manifest_first_witness :
  exists (stripped : PackageJson) (later : list string),
    writes (snd (publish Sample.parse Sample.stringify Sample.publishFails minor false false
                   Sample.disk))
    = (writes Sample.disk ++ (Sample.stringify stripped ++ newline)%string :: later)%list /\
    get "devDependencies" stripped = None /\
    get "version" stripped = Some (JString (bumpVersion "1.0.0" minor false false)) /\
    (forall key, key <> "version" -> key <> "devDependencies" ->
       get key stripped = get key Sample.manifest) /\
    (List.length later <= 2)%nat.
Proof.
  apply (publish_writes_stripped_manifest_first
           Sample.parse Sample.stringify Sample.publishFails minor false false
           Sample.disk Sample.manifest "1.0.0").
  - reflexivity.
  - reflexivity.
  - split; reflexivity.
  - reflexivity.
Defined.

(** X21: when the action clean or build is chosen and a command exits
    with a code other than 0, [main] does not throw: it prints
    ["Error: "] followed by the code on the error stream, then the closing
    blank line, and it writes nothing. *)
Theorem main_reports_exit_code
    (JSON_parse : string -> string + PackageJson)
    (JSON_stringify : PackageJson -> string) (session : Session) (w : World)
    (action : string) (code : Z) :
  Prompt.promise
    (Prompt.run (actionKeys session)
       (Prompt.select (Some "Select an action:")
          (OfObject [("publish", "Publish"); ("build", "Build"); ("clean", "Clean")])
          (Prompt.new (stdinIsTTY (run session)))))
  = Done (Resolved action) ->
  action = "clean" \/ action = "build" ->
  exitCode (run session) clean_cmd = Some code ->
  code <> 0 ->
  exists printed : list Output,
    main JSON_parse JSON_stringify session w
    = (Normal tt,
       {| file := file w; writes := writes w;
          console :=
            (console w ++ printed
             ++ [Error (red ("Error: " ++ JS.toString (JS.Int code))%string); Log newline])%list |}).
Proof.
  intros Hp Haction Hclean Hcode. destruct w as [text ws cs].
  assert (Hthrow : forall (A : Type) (x y : A),
             match code with 0 => x | Z.pos _ | Z.neg _ => y end = y)
    by (intros; destruct code; congruence).
  set (p := Prompt.run (actionKeys session) _) in *.
  destruct Haction as [-> | ->];
    [exists (Prompt.out p ++ [Log (green "Running clean...")])%list
    |exists (Prompt.out p ++ [Log (green "Running build...");
                              Log (green "Running clean...")])%list];
    run_main; fold p; rewrite Hp; cbn [String.eqb Ascii.eqb Bool.eqb];
    cbv beta iota zeta delta
      [build clean DebugExec bind ret throw console_log console_error print message
       world packageJson file writes console];
    rewrite Hclean, Hthrow; cbn [thrownToString Prompt.out Prompt.new List.length skipn];
    rewrite <- ?app_assoc; reflexivity.
Qed.

Lemma main_reports_exit_code_witness :
  exists printed : list Output,
    main Sample.parse Sample.stringify
      (mkSession
         {| stdinIsTTY := false; exitCode := fun _ => Some 127; confirmKeys := [] |}
         [key_down; key_return] [] [])
      Sample.disk
    = (Normal tt,
       {| file := file Sample.disk; writes := writes Sample.disk;
          console :=
            (console Sample.disk ++ printed
             ++ [Error (red ("Error: " ++ JS.toString (JS.Int 127))%string); Log newline])%list |}).
Proof.
  apply (main_reports_exit_code Sample.parse Sample.stringify _ Sample.disk "build" 127).
  - reflexivity.
  - now right.
  - reflexivity.
  - discriminate.
Defined.

(** X22: [bumpVersion] does not reject a version it cannot read: when the
    first part of the version has no leading number, the result begins
    with ["NaN."], whatever the type and the flags. *)
Theorem bumpVersion_unreadable_major (version : string) (type : VersionType)
    (isRc incrementRcOnly : bool) :
  v_major (parseVersion version) = JS.NaN ->
  exists rest, bumpVersion version type isRc incrementRcOnly = "NaN." ++ rest.
Proof.
  intros Hnan. unfold bumpVersion, formatVersion.
  set (v1 := if negb incrementRcOnly then bumpBase type (parseVersion version)
             else parseVersion version).
  assert (H1 : v_major v1 = JS.NaN).
  { subst v1. destruct incrementRcOnly; cbn [negb]; [exact Hnan|].
    destruct type; cbn [bumpBase v_major]; unfold incr; now rewrite ?Hnan. }
  destruct isRc; cbn [v_major v_minor v_patch prerelease]; rewrite H1;
    cbn [JS.toString];
    [destruct (nextRc (prerelease v1))|destruct (prerelease v1) as [[|c p]|]];
    cbn [JS.truthy]; rewrite ?append_assoc; cbn [append]; eexists; reflexivity.
Qed.

Lemma bumpVersion_unreadable_major_witness :
  exists rest, bumpVersion "v1.2.3" patch false false = "NaN." ++ rest.
Proof.
  apply (bumpVersion_unreadable_major "v1.2.3" patch false false). reflexivity.
Defined.
